(** * Network resolution agent and OpenWRT router query layer

    A shallow embedding of the router-cache, resolution, DHCP-lease parsing
    and web-scraping logic of [openai_network_agent.py], [openwrt_query.py]
    and [modules/openwrt_web.py], with the properties the specification
    states about them.

    Conventions of the embedding.
    - Python [str] values are Rocq strings; a character stands for the code
      point of the same number (0..255).  [isspace] and [lower] follow
      Python's tables on that range.
    - [time.time()] readings are integers (clock ticks); the source only
      subtracts and compares them.
    - Whatever leaves the process (the router backend, DNS, ping, HTTP, the
      [ipaddress], [json] and [re] libraries) is an oracle collected in an
      environment record; every theorem quantifies over it. *)

From Stdlib Require Import ZArith Ascii String.
From stdpp Require Import gmap strings list pretty.
Local Open Scope string_scope.
Local Open Scope list_scope.
Local Open Scope Z_scope.

(** ** Python string primitives *)

Module Py.

(** [str.isspace] on one character: TAB..CR, FS..US, SPACE, NEL, NBSP. *)
Definition isspace (c : ascii) : bool :=
  let n := N_of_ascii c in
  ((9 <=? n) && (n <=? 13) || (28 <=? n) && (n <=? 32) || (n =? 133) || (n =? 160))%N.

Definition nonempty (s : string) : bool :=
  match s with EmptyString => false | String _ _ => true end.

Fixpoint lstrip (s : string) : string :=
  match s with
  | EmptyString => EmptyString
  | String c r => if isspace c then lstrip r else s
  end.

Fixpoint rstrip (s : string) : string :=
  match s with
  | EmptyString => EmptyString
  | String c r =>
      let r' := rstrip r in
      if isspace c && negb (nonempty r') then EmptyString else String c r'
  end.

(** [str.strip()] *)
Definition strip (s : string) : string := rstrip (lstrip s).

(** [str.lower()] on one character: A..Z and the Latin-1 capitals. *)
Definition lower_char (c : ascii) : ascii :=
  let n := N_of_ascii c in
  if ((65 <=? n) && (n <=? 90) || (192 <=? n) && (n <=? 222) && negb (n =? 215))%N
  then ascii_of_N (n + 32) else c.

Fixpoint lower (s : string) : string :=
  match s with
  | EmptyString => EmptyString
  | String c r => String (lower_char c) (lower r)
  end.

(** [str.split()] with no separator: the maximal runs of non-space. *)
Fixpoint split_ws (s : string) : list string :=
  match s with
  | EmptyString => []
  | String c r =>
      if isspace c then split_ws r
      else match r with
           | EmptyString => [String c EmptyString]
           | String d _ =>
               if isspace d then String c EmptyString :: split_ws r
               else match split_ws r with
                    | w :: ws => String c w :: ws
                    | [] => [String c EmptyString]
                    end
           end
  end.

(** [str.split(sep)] for a one-character separator; never the empty list. *)
Fixpoint split_on (sep : ascii) (s : string) : list string :=
  match s with
  | EmptyString => [EmptyString]
  | String c r =>
      if Ascii.eqb c sep then EmptyString :: split_on sep r
      else match split_on sep r with
           | w :: ws => String c w :: ws
           | [] => [String c EmptyString]
           end
  end.

(** [str.startswith(c)] for a one-character prefix. *)
Definition startswith_char (c : ascii) (s : string) : bool :=
  match s with
  | EmptyString => false
  | String d _ => Ascii.eqb d c
  end.

(** [c in s] for a character. *)
Fixpoint mem_char (c : ascii) (s : string) : bool :=
  match s with
  | EmptyString => false
  | String d r => Ascii.eqb d c || mem_char c r
  end.

Fixpoint all_chars (p : ascii -> bool) (s : string) : bool :=
  match s with
  | EmptyString => true
  | String c r => p c && all_chars p r
  end.

Definition newline : ascii := "010"%char.

End Py.

(** ** [openwrt_query.py]: the SSH backend's lease parser *)

Module OpenWRTQuery.

(** [RouterDevice] dataclass. *)
Record RouterDevice := mkRouterDevice {
  ip_address : string;
  hostname : string;
  mac_address : string;
  lease_time : option string;
  interface : option string
}.

Definition list_get (parts : list string) (i : nat) : string := nth i parts EmptyString.

(** [OpenWRTQuerySSH._parse_dhcp_leases].  The first loop fills [arp_map];
    the second appends one device per accepted lease line. *)
Definition _parse_dhcp_leases (leases_data arp_data : string) : list RouterDevice :=
  let arp_map : gmap string string :=
    foldl (fun arp_map line =>
             let parts := Py.split_ws line in
             if (4 <=? length parts)%nat
             then <[list_get parts 0 := list_get parts 3]> arp_map
             else arp_map)
          ∅ (tail (Py.split_on Py.newline (Py.strip arp_data))) in
  foldl (fun devices line =>
           if Py.nonempty (Py.strip line) then
             let parts := Py.split_ws line in
             if (4 <=? length parts)%nat then
               let lease_time := list_get parts 0 in
               let mac_address := list_get parts 1 in
               let ip_address := list_get parts 2 in
               let hostname :=
                 if String.eqb (list_get parts 3) "*"
                 then "device-" +:+ List.last (Py.split_on "."%char ip_address) EmptyString
                 else list_get parts 3 in
               devices ++ [mkRouterDevice ip_address hostname mac_address (Some lease_time) None]
             else devices
           else devices)
        [] (Py.split_on Py.newline (Py.strip leases_data)).

(** The lease line of the specification, read field by field: at least four
    whitespace-separated fields give one record, anything else none. *)
Definition lease_line_records (line : string) : list RouterDevice :=
  match Py.split_ws line with
  | lease :: mac :: ip :: host :: _ =>
      [mkRouterDevice ip
         (if String.eqb host "*"
          then "device-" +:+ List.last (Py.split_on "."%char ip) EmptyString
          else host)
         mac (Some lease) None]
  | _ => []
  end.

End OpenWRTQuery.

(** ** Python values, ordered dictionaries, exceptions *)

Module PyVal.

(** A Python [float]: a finite binary value [mantissa * 2^exponent], an
    infinity or a NaN. *)
Inductive pyfloat :=
| Finite (mantissa exponent : Z)
| Inf (negative : bool)
| NaN.

(** The values that travel through JSON documents, keyword arguments and
    result mappings.  A [dict] keeps its insertion order. *)
#[warning="-register-all"]
Inductive pyval :=
| PNone
| PBool (b : bool)
| PInt (n : Z)
| PFloat (x : pyfloat)
| PStr (s : string)
| PList (items : list pyval)
| PDict (entries : list (string * pyval)).

(** A clock reading as a Python [float]. *)
Definition of_time (t : Z) : pyval := PFloat (Finite t 0).

Definition of_option_str (o : option string) : pyval :=
  match o with Some s => PStr s | None => PNone end.

(** [bool(v)] *)
Definition truthy (v : pyval) : bool :=
  match v with
  | PNone => false
  | PBool b => b
  | PInt n => negb (n =? 0)
  | PFloat (Finite m _) => negb (m =? 0)
  | PFloat _ => true
  | PStr s => Py.nonempty s
  | PList l => match l with [] => false | _ => true end
  | PDict d => match d with [] => false | _ => true end
  end.

Definition type_name (v : pyval) : string :=
  match v with
  | PNone => "NoneType"
  | PBool _ => "bool"
  | PInt _ => "int"
  | PFloat _ => "float"
  | PStr _ => "str"
  | PList _ => "list"
  | PDict _ => "dict"
  end.

Section Dict.
Context {V : Type}.

(** [d[k]] / [k in d] *)
Fixpoint dict_get (k : string) (d : list (string * V)) : option V :=
  match d with
  | [] => None
  | (k', v) :: r => if String.eqb k' k then Some v else dict_get k r
  end.

(** [d[k] = v]: an existing key keeps its position. *)
Fixpoint dict_set (k : string) (v : V) (d : list (string * V)) : list (string * V) :=
  match d with
  | [] => [(k, v)]
  | (k', v') :: r => if String.eqb k' k then (k', v) :: r else (k', v') :: dict_set k v r
  end.

(** [d.setdefault(k, v)] *)
Definition dict_setdefault (k : string) (v : V) (d : list (string * V)) : list (string * V) :=
  match dict_get k d with
  | Some _ => d
  | None => dict_set k v d
  end.

(** [{**d, **e}] / [d.update(e)] *)
Definition dict_update (d e : list (string * V)) : list (string * V) :=
  foldl (fun acc kv => dict_set kv.1 kv.2 acc) d e.

End Dict.

(** Exception classes, as the handlers of this code tell them apart. *)
Inductive exn_class :=
| GaiError | HError | RequestException | ConnectionError | ImportError
| TimeoutExpired | FileNotFoundError | TypeError | AttributeError
| JSONDecodeError | OtherError.

Record exn := mkExn { exn_kind : exn_class; exn_text : string }.

Inductive outcome (A : Type) :=
| Returns (a : A)
| Raises (e : exn).
Arguments Returns {A} a.
Arguments Raises {A} e.

Global Instance exn_class_eq_dec : EqDecision exn_class.
Proof. solve_decision. Defined.

End PyVal.

Import PyVal.

(** ** A state monad for code that mutates [self] and talks to the world *)

Module St.

Definition M (S A : Type) : Type := S -> A * S.

Definition ret {S A} (a : A) : M S A := fun s => (a, s).
Definition bind {S A B} (m : M S A) (k : A -> M S B) : M S B :=
  fun s => let '(a, s') := m s in k a s'.
Definition get {S} : M S S := fun s => (s, s).
Definition modify {S} (f : S -> S) : M S unit := fun s => (tt, f s).

End St.

Notation "x <~ m ;; k" := (St.bind m (fun x => k))
  (at level 100, m at next level, right associativity).
Notation "m ;;; k" := (St.bind m (fun _ => k))
  (at level 100, right associativity).

(** ** [modules/openwrt_web.py]: the web backend *)

Module OpenWRTWeb.

(** What the web backend gets from outside: the login handshake, the HTTP
    session, and the [json] and [re] libraries. *)
Record Env := {
  (** [OpenWRTWebAuth.authenticate()] *)
  authenticate : outcome bool;
  (** [session.get(urljoin(base_url, endpoint))]: status code and body *)
  session_get : string -> outcome (Z * string);
  (** [json.loads] *)
  json_loads : string -> outcome pyval;
  (** [re.finditer(pattern, content, IGNORECASE | DOTALL)]: the groups
      [group(1)], [group(2)], ... of each match, in order *)
  finditer : string -> string -> list (list string);
  (** [str(v)] for floats and containers *)
  py_repr : pyval -> string
}.

(** A scraped device: a [dict] from field name to text. *)
Abbreviation DeviceDict := (list (string * string)).

Definition endpoints : list string :=
  [ "/cgi-bin/luci/admin/status/overview";
    "/cgi-bin/luci/admin/network/dhcp";
    "/cgi-bin/luci/admin/status/processes";
    "/status/dhcp_clients";
    "/api/dhcp/clients" ].

Definition key_mappings : list (string * list string) :=
  [ ("ip_address", ["ip"; "ipaddr"; "ip_address"; "address"]);
    ("hostname", ["hostname"; "name"; "device_name"; "client_name"]);
    ("mac_address", ["mac"; "macaddr"; "mac_address"; "hwaddr"]);
    ("lease_time", ["lease"; "lease_time"; "expires"; "expiry"]) ].

Definition patterns : list string :=
  [ "<tr[^>]*>.*?(\d+\.\d+\.\d+\.\d+).*?([0-9a-fA-F:]{17}).*?([^<>\s]+).*?</tr>";
    "var\s+\w+\s*=\s*(\[.*?\]);";
    "dhcp_clients\s*[:=]\s*(\[.*?\])";
    "(\d+\.\d+\.\d+\.\d+)\s+([0-9a-fA-F:]{17})\s+([^\s<>]+)" ].

Section WithEnv.
Variable E : Env.

(** [str(v)] *)
Definition py_str (v : pyval) : string :=
  match v with
  | PStr s => s
  | PNone => "None"
  | PBool true => "True"
  | PBool false => "False"
  | PInt n => pretty n
  | _ => py_repr E v
  end.

(** The inner loop of [_extract_device_info]: the first key of
    [possible_keys] that is in [data] with a truthy value is stored under
    [standard_key], and the loop breaks. *)
Fixpoint scan_keys (data : list (string * pyval)) (standard_key : string)
    (possible_keys : list string) (device : DeviceDict) : DeviceDict :=
  match possible_keys with
  | [] => device
  | key :: rest =>
      match dict_get key data with
      | Some v =>
          if truthy v then dict_set standard_key (py_str v) device
          else scan_keys data standard_key rest device
      | None => scan_keys data standard_key rest device
      end
  end.

(** [OpenWRTWebQuery._extract_device_info] *)
Definition _extract_device_info (data : list (string * pyval)) : DeviceDict :=
  let device :=
    foldl (fun device km => scan_keys data km.1 km.2 device) [] key_mappings in
  let device := dict_setdefault "ip_address" "Unknown" device in
  let device := dict_setdefault "hostname" "Unknown" device in
  let device := dict_setdefault "mac_address" "Unknown" device in
  device.

Definition is_some {A} (o : option A) : bool :=
  match o with Some _ => true | None => false end.

(** [OpenWRTWebQuery._parse_json_response] *)
Definition _parse_json_response (data : pyval) : list DeviceDict :=
  match data with
  | PList items =>
      foldl (fun devices item =>
               match item with
               | PDict d =>
                   if is_some (dict_get "ip" d)
                   then devices ++ [_extract_device_info d]
                   else devices
               | _ => devices
               end) [] items
  | PDict d =>
      foldl (fun devices key =>
               match dict_get key d with
               | Some (PList items) =>
                   foldl (fun devices item =>
                            match item with
                            | PDict i => devices ++ [_extract_device_info i]
                            | _ => devices
                            end) devices items
               | _ => devices
               end) [] ["clients"; "devices"; "dhcp_clients"; "leases"]
  | _ => []
  end.

(** The body of the per-match [try] of [_parse_html_response]; a raise
    inside it is caught and leaves [devices] as it was. *)
Definition html_match (devices : list DeviceDict) (groups : list string) : list DeviceDict :=
  let group1 := nth 0 groups EmptyString in
  if Py.startswith_char "["%char group1 then
    match json_loads E group1 with
    | Returns (PList items) =>
        foldl (fun devices item =>
                 match item with
                 | PDict i => devices ++ [_extract_device_info i]
                 | _ => devices
                 end) devices items
    | _ => devices
    end
  else
    devices ++
      [[ ("ip_address", group1);
         ("mac_address", if (2 <=? length groups)%nat then nth 1 groups EmptyString
                         else EmptyString);
         ("hostname", if (3 <=? length groups)%nat then nth 2 groups EmptyString
                      else "Unknown") ]].

(** [OpenWRTWebQuery._parse_html_response] *)
Definition _parse_html_response (content : string) : list DeviceDict :=
  foldl (fun devices pattern => foldl html_match devices (finditer E pattern content))
        [] patterns.

(** [OpenWRTWebQuery._parse_response]: any exception of the parse is
    swallowed and leaves [devices = []]. *)
Definition _parse_response (content : string) : list DeviceDict :=
  if Py.startswith_char "{"%char (Py.strip content)
     || Py.startswith_char "["%char (Py.strip content)
  then match json_loads E content with
       | Returns json_data => _parse_json_response json_data
       | Raises _ => []
       end
  else _parse_html_response content.

(** The state threaded through a query is the list of endpoints probed so
    far, oldest first. *)
Abbreviation Probe := (St.M (list string)).

Definition probe (endpoint : string) : Probe unit :=
  St.modify (fun probed => probed ++ [endpoint]).

(** [OpenWRTWebQuery._query_endpoint] *)
Definition _query_endpoint (endpoint : string) : Probe (outcome (list DeviceDict)) :=
  probe endpoint ;;;
  match session_get E endpoint with
  | Returns (status_code, text) =>
      if status_code =? 200 then St.ret (Returns (_parse_response text))
      else St.ret (Returns [])
  | Raises e =>
      match exn_kind e with
      | RequestException => St.ret (Returns [])
      | _ => St.ret (Raises e)
      end
  end.

(** The [for endpoint in endpoints] loop of [get_dhcp_clients]. *)
Fixpoint probe_loop (endpoints : list string) (devices : list DeviceDict)
    : Probe (list DeviceDict) :=
  match endpoints with
  | [] => St.ret devices
  | endpoint :: rest =>
      r <~ _query_endpoint endpoint ;;
      match r with
      | Returns devices' =>
          match devices' with
          | _ :: _ => St.ret devices'                (* break *)
          | [] => probe_loop rest devices'
          end
      | Raises _ => probe_loop rest devices          (* continue *)
      end
  end.

(** [OpenWRTWebQuery.get_dhcp_clients] *)
Definition get_dhcp_clients : Probe (outcome (list DeviceDict)) :=
  match authenticate E with
  | Raises e => St.ret (Raises e)
  | Returns false =>
      St.ret (Raises (mkExn ConnectionError
                        "Failed to authenticate to router web interface"))
  | Returns true =>
      devices <~ probe_loop endpoints [] ;;
      St.ret (Returns devices)
  end.

End WithEnv.

(** The normalization of the specification: the value of the first
    candidate key present with a non-empty value. *)
Definition first_nonempty (data : list (string * pyval)) (candidates : list string)
    : option pyval :=
  head (omap (fun k => match dict_get k data with
                       | Some v => if truthy v then Some v else None
                       | None => None
                       end) candidates).

End OpenWRTWeb.

(** ** [openai_network_agent.py]: the resolution agent *)

Module Agent.

(** What the agent observes of the world, in the order it happens. *)
Inductive event :=
| EvBackend                        (* router_manager.get_connected_devices() *)
| EvCacheLookup (key : string)     (* key in self.cached_devices *)
| EvDns (name : string)            (* socket.gethostbyname *)
| EvAddrInfo (name : string)       (* socket.getaddrinfo *)
| EvReverseDns (ip : string)       (* socket.gethostbyaddr *)
| EvPingName (ip : string)         (* ping -c 1 -a, for a name *)
| EvPing (host : string).          (* ping -c 1 -W, for reachability *)

(** The world outside the agent. *)
Record Env := {
  (** the n-th reading of [time.time()] *)
  time_time : nat -> Z;
  (** [ROUTER_AVAILABLE]: the import of [openwrt_query] succeeded *)
  router_available : bool;
  (** [RouterQueryManager()] returns rather than raises *)
  router_manager_new : bool;
  (** the n-th call of [router_manager.get_connected_devices()] *)
  get_connected_devices : nat -> outcome (list OpenWRTQuery.RouterDevice);
  (** [ipaddress.ip_address(s)] returns rather than raises [ValueError] *)
  ip_address_ok : string -> bool;
  (** [ipaddress.ip_address(s).is_private] *)
  ip_is_private : string -> bool;
  gethostbyname : string -> outcome string;
  (** the address families [info[0]] of [socket.getaddrinfo(name, None)] *)
  getaddrinfo : string -> outcome (list Z);
  gethostbyaddr : string -> outcome string;
  (** [_try_ping_hostname_resolution]: the name echoed by ping, if any *)
  ping_name : string -> option string;
  (** the return code of the reachability ping *)
  ping_run : string -> outcome Z;
  (** the text of an exception raised by the interpreter itself *)
  interpreter_text : exn_class -> string
}.

(** [ResolutionResult] dataclass. *)
Record ResolutionResult := mkResult {
  success : bool;
  query : pyval;
  result : option string;
  source : string;
  additional_info : option (list (string * pyval));
  error : option string;
  timestamp : Z
}.

(** The attributes of [NetworkResolutionAgent] ([router_manager] is [true]
    when the attribute holds a manager, [false] when it is [None]), then
    the bookkeeping of the embedding: clock readings taken, backend calls
    made, and the events so far. *)
Record agent := mkAgent {
  use_router_data : bool;
  router_manager : bool;
  cached_devices : gmap string string;
  cache_timestamp : Z;
  clock_reads : nat;
  backend_calls : nat;
  trace : list event
}.

Definition cache_ttl : Z := 300.

Definition set_cached_devices (m : gmap string string) (s : agent) : agent :=
  mkAgent (use_router_data s) (router_manager s) m (cache_timestamp s)
          (clock_reads s) (backend_calls s) (trace s).

Definition set_cache_timestamp (t : Z) (s : agent) : agent :=
  mkAgent (use_router_data s) (router_manager s) (cached_devices s) t
          (clock_reads s) (backend_calls s) (trace s).

Abbreviation Act := (St.M agent).

Section WithEnv.
Variable E : Env.

(** [NetworkResolutionAgent.__init__] *)
Definition init (want_router_data : bool) : agent :=
  let use := want_router_data && router_available E in
  if use && router_manager_new E
  then mkAgent true true ∅ 0 0 0 []
  else mkAgent false false ∅ 0 0 0 [].

(** [time.time()] *)
Definition time_now : Act Z :=
  fun s =>
    (time_time E (clock_reads s),
     mkAgent (use_router_data s) (router_manager s) (cached_devices s)
             (cache_timestamp s) (S (clock_reads s)) (backend_calls s) (trace s)).

Definition emit (ev : event) : Act unit :=
  fun s =>
    (tt,
     mkAgent (use_router_data s) (router_manager s) (cached_devices s)
             (cache_timestamp s) (clock_reads s) (backend_calls s) (trace s ++ [ev])).

(** [self.router_manager.get_connected_devices()] *)
Definition call_backend : Act (outcome (list OpenWRTQuery.RouterDevice)) :=
  fun s =>
    (get_connected_devices E (backend_calls s),
     mkAgent (use_router_data s) (router_manager s) (cached_devices s)
             (cache_timestamp s) (clock_reads s) (S (backend_calls s))
             (trace s ++ [EvBackend])).

(** [{device.hostname.lower(): device.ip_address for device in devices}] *)
Definition hostname_index (devices : list OpenWRTQuery.RouterDevice) : gmap string string :=
  foldl (fun m device =>
           <[Py.lower (OpenWRTQuery.hostname device) := OpenWRTQuery.ip_address device]> m)
        ∅ devices.

(** [{device.ip_address: device.hostname for device in devices}] *)
Definition ip_index (devices : list OpenWRTQuery.RouterDevice) : gmap string string :=
  foldl (fun m device =>
           <[OpenWRTQuery.ip_address device := OpenWRTQuery.hostname device]> m)
        ∅ devices.

(** [len(self.cached_devices) > 0] *)
Definition cache_nonempty : Act bool :=
  s <~ St.get ;; St.ret (negb (bool_decide (cached_devices s = ∅))).

(** [NetworkResolutionAgent._refresh_router_cache] *)
Definition _refresh_router_cache : Act bool :=
  current_time <~ time_now ;;
  s <~ St.get ;;
  if current_time - cache_timestamp s >? cache_ttl then
    if router_manager s then
      r <~ call_backend ;;
      match r with
      | Returns devices =>
          St.modify (set_cached_devices (hostname_index devices)) ;;;
          St.modify (fun s => set_cached_devices (ip_index devices ∪ cached_devices s) s) ;;;
          St.modify (set_cache_timestamp current_time) ;;;
          St.ret true
      | Raises _ => cache_nonempty
      end
    else cache_nonempty
  else cache_nonempty.

(** [key in self.cached_devices], then [self.cached_devices[key]] *)
Definition cache_lookup (key : string) : Act (option string) :=
  emit (EvCacheLookup key) ;;;
  s <~ St.get ;;
  St.ret (cached_devices s !! key).

Definition _is_valid_ip (ip_string : string) : bool := ip_address_ok E ip_string.

Definition _is_private_ip (ip_string : string) : bool :=
  ip_address_ok E ip_string && ip_is_private E ip_string.

(** [ResolutionResult(...)]: [__post_init__] stamps the record. *)
Definition new_result (success : bool) (query : pyval) (result : option string)
    (source : string) (additional_info : option (list (string * pyval)))
    (error : option string) : Act ResolutionResult :=
  t <~ time_now ;;
  St.ret (mkResult success query result source additional_info error t).

(** The router-data block shared in shape by both resolvers: refresh, look
    the key up, and answer from the cache when the guard accepts the value. *)
Definition from_router (key : string) (guard : string -> bool)
    : Act (option ResolutionResult) :=
  fresh <~ _refresh_router_cache ;;
  if fresh then
    found <~ cache_lookup key ;;
    match found with
    | Some value =>
        if guard value then
          now <~ time_now ;;
          s <~ St.get ;;
          r <~ new_result true (PStr key) (Some value) "router_data"
                 (Some [("cache_age", of_time (now - cache_timestamp s))]) None ;;
          St.ret (Some r)
        else St.ret None
    | None => St.ret None
    end
  else St.ret None.

(** The [try] block of [resolve_hostname_to_ip]: system DNS. *)
Definition forward_lookup (hostname : string) : Act ResolutionResult :=
  emit (EvDns hostname) ;;;
  match gethostbyname E hostname with
  | Returns ip =>
      let info := [("method", PStr "dns_lookup")] in
      emit (EvAddrInfo hostname) ;;;
      let info :=
        match getaddrinfo E hostname with
        | Returns families =>
            dict_set "address_family"
              (match families with f :: _ => PInt f | [] => PNone end) info
        | Raises _ => info
        end in
      new_result true (PStr hostname) (Some ip) "dns" (Some info) None
  | Raises e =>
      match exn_kind e with
      | GaiError =>
          new_result false (PStr hostname) None "dns" None
            (Some ("DNS resolution failed: " +:+ exn_text e))
      | _ =>
          new_result false (PStr hostname) None "dns" None
            (Some ("Unexpected error: " +:+ exn_text e))
      end
  end.

(** [NetworkResolutionAgent.resolve_hostname_to_ip] *)
Definition resolve_hostname_to_ip (hostname : string) (include_router_data : bool)
    : Act ResolutionResult :=
  let hostname := Py.lower (Py.strip hostname) in
  s <~ St.get ;;
  hit <~ (if include_router_data && use_router_data s
          then from_router hostname _is_valid_ip
          else St.ret None) ;;
  match hit with
  | Some r => St.ret r
  | None => forward_lookup hostname
  end.

(** The [try] block of [resolve_ip_to_hostname]: reverse DNS, then for a
    private address the name echoed by ping. *)
Definition reverse_lookup (ip_address : string) : Act ResolutionResult :=
  emit (EvReverseDns ip_address) ;;;
  match gethostbyaddr E ip_address with
  | Returns hostname =>
      new_result true (PStr ip_address) (Some hostname) "reverse_dns"
        (Some [("method", PStr "reverse_dns_lookup")]) None
  | Raises e =>
      match exn_kind e with
      | HError =>
          let failed :=
            new_result false (PStr ip_address) None "reverse_dns" None
              (Some ("Reverse DNS lookup failed: " +:+ exn_text e)) in
          if _is_private_ip ip_address then
            emit (EvPingName ip_address) ;;;
            match ping_name E ip_address with
            | Some hostname =>
                if Py.nonempty hostname then
                  new_result true (PStr ip_address) (Some hostname) "ping_resolution"
                    (Some [("method", PStr "ping_hostname")]) None
                else failed
            | None => failed
            end
          else failed
      | _ =>
          new_result false (PStr ip_address) None "reverse_dns" None
            (Some ("Unexpected error: " +:+ exn_text e))
      end
  end.

(** [NetworkResolutionAgent.resolve_ip_to_hostname] *)
Definition resolve_ip_to_hostname (ip_address : string) (include_router_data : bool)
    : Act ResolutionResult :=
  let ip_address := Py.strip ip_address in
  if negb (_is_valid_ip ip_address) then
    new_result false (PStr ip_address) None "validation" None (Some "Invalid IP address format")
  else
    s <~ St.get ;;
    hit <~ (if include_router_data && use_router_data s
            then from_router ip_address (fun v => negb (_is_valid_ip v))
            else St.ret None) ;;
    match hit with
    | Some r => St.ret r
    | None => reverse_lookup ip_address
    end.

(** The dispatch of one query inside [bulk_resolve]. *)
Definition resolve_query (auto_detect_type : bool) (query : string) : Act ResolutionResult :=
  if auto_detect_type then
    if _is_valid_ip query then resolve_ip_to_hostname query true
    else resolve_hostname_to_ip query true
  else resolve_hostname_to_ip query true.

(** The [for query in queries] loop of [bulk_resolve], appending to
    [results]. *)
Fixpoint bulk_loop (auto_detect_type : bool) (queries : list string)
    (results : list ResolutionResult) : Act (list ResolutionResult) :=
  match queries with
  | [] => St.ret results
  | query :: rest =>
      r <~ resolve_query auto_detect_type query ;;
      bulk_loop auto_detect_type rest (results ++ [r])
  end.

(** [NetworkResolutionAgent.bulk_resolve] *)
Definition bulk_resolve (queries : list string) (auto_detect_type : bool)
    : Act (list ResolutionResult) :=
  bulk_loop auto_detect_type queries [].

(** [NetworkResolutionAgent._ping_host] *)
Definition _ping_host (host : string) : Act (outcome bool) :=
  emit (EvPing host) ;;;
  match ping_run E host with
  | Returns returncode => St.ret (Returns (returncode =? 0))
  | Raises e =>
      match exn_kind e with
      | TimeoutExpired | FileNotFoundError => St.ret (Returns false)
      | _ => St.ret (Raises e)
      end
  end.

(** [info[key]] for a key that is present. *)
Definition item (key : string) (info : list (string * pyval)) : pyval :=
  default PNone (dict_get key info).

Definition as_str (v : pyval) : string :=
  match v with PStr s => s | _ => EmptyString end.

(** [a and b] *)
Definition py_and (a b : pyval) : pyval := if truthy a then b else a.

(** The [for ... in self.cached_devices.items()] search of
    [get_network_info], with its [else] clause. *)
Definition found_in_router (target : string) (cache : gmap string string) : bool :=
  existsb (fun kv => bool_decide (kv.1 = target) || bool_decide (kv.2 = target))
          (map_to_list cache).

(** [NetworkResolutionAgent.get_network_info] for a [target] that is a
    [str]. *)
Definition network_info (target : string) : Act ResolutionResult :=
  let is_ip := _is_valid_ip target in
  let info :=
    [ ("input_type", PStr (if is_ip then "ip_address" else "hostname"));
      ("is_private", PBool false);
      ("is_local", PBool false);
      ("ping_successful", PBool false) ] in
  info <~ (if is_ip then
             hostname_result <~ resolve_ip_to_hostname target true ;;
             let info := dict_set "ip_address" (PStr target) info in
             let info := dict_set "hostname"
                           (if success hostname_result
                            then of_option_str (result hostname_result) else PNone) info in
             St.ret (dict_set "is_private" (PBool (_is_private_ip target)) info)
           else
             ip_result <~ resolve_hostname_to_ip target true ;;
             let info := dict_set "hostname" (PStr target) info in
             let info := dict_set "ip_address"
                           (if success ip_result
                            then of_option_str (result ip_result) else PNone) info in
             St.ret (if truthy (item "ip_address" info)
                     then dict_set "is_private"
                            (PBool (_is_private_ip (as_str (item "ip_address" info)))) info
                     else info)) ;;
  pinged <~ (if truthy (item "ip_address" info) then
               p <~ _ping_host (as_str (item "ip_address" info)) ;;
               match p with
               | Returns ok =>
                   let info := dict_set "ping_successful" (PBool ok) info in
                   St.ret (Returns
                     (dict_set "is_local"
                        (py_and (item "is_private" info) (item "ping_successful" info)) info))
               | Raises e => St.ret (Raises e)
               end
             else St.ret (Returns info)) ;;
  match pinged with
  | Returns info =>
      s <~ St.get ;;
      info <~ (if use_router_data s && truthy (item "is_private" info) then
                 _refresh_router_cache ;;;
                 s <~ St.get ;;
                 St.ret (dict_set "found_in_router"
                           (PBool (found_in_router target (cached_devices s))) info)
               else St.ret info) ;;
      new_result true (PStr target) None "network_info" (Some info) None
  | Raises e =>
      new_result false (PStr target) None "network_info" None
        (Some ("Network info gathering failed: " +:+ exn_text e))
  end.

(** [NetworkResolutionAgent.get_network_info].  A [target] that is not a
    [str] reaches the [strip] of one of the resolvers inside the [try]
    block, whichever way [_is_valid_ip] classified it; the [AttributeError]
    is caught there and reported in the result. *)
Definition get_network_info (target : pyval) : Act ResolutionResult :=
  match target with
  | PStr target => network_info target
  | _ =>
      new_result false target None "network_info" None
        (Some ("Network info gathering failed: " +:+ interpreter_text E AttributeError))
  end.

(** [dataclasses.asdict(result)] *)
Definition asdict (r : ResolutionResult) : list (string * pyval) :=
  [ ("success", PBool (success r));
    ("query", query r);
    ("result", of_option_str (result r));
    ("source", PStr (source r));
    ("additional_info",
       match additional_info r with Some d => PDict d | None => PNone end);
    ("error", of_option_str (error r));
    ("timestamp", of_time (timestamp r)) ].

(** *** Calls by keyword arguments

    [execute_function] forwards its keyword arguments.  The call fails with
    [TypeError] before the body runs when a keyword is not a parameter or a
    parameter without default is missing. *)

Definition interpreter_raises {A} (k : exn_class) : outcome A :=
  Raises (mkExn k (interpreter_text E k)).

Definition accepts (params required : list string) (kwargs : list (string * pyval)) : bool :=
  forallb (fun kv => existsb (String.eqb kv.1) params) kwargs
  && forallb (fun p => OpenWRTWeb.is_some (dict_get p kwargs)) required.

(** A parameter with default [True]. *)
Definition flag (name : string) (kwargs : list (string * pyval)) : bool :=
  match dict_get name kwargs with Some v => truthy v | None => true end.

(** [self.resolve_hostname_to_ip( **kwargs )]: a [hostname] that is not a
    [str] has no [strip]. *)
Definition call_resolve_hostname_to_ip (kwargs : list (string * pyval))
    : Act (outcome ResolutionResult) :=
  if accepts ["hostname"; "include_router_data"] ["hostname"] kwargs then
    match item "hostname" kwargs with
    | PStr hostname =>
        r <~ resolve_hostname_to_ip hostname (flag "include_router_data" kwargs) ;;
        St.ret (Returns r)
    | _ => St.ret (interpreter_raises AttributeError)
    end
  else St.ret (interpreter_raises TypeError).

(** [self.resolve_ip_to_hostname( **kwargs )] *)
Definition call_resolve_ip_to_hostname (kwargs : list (string * pyval))
    : Act (outcome ResolutionResult) :=
  if accepts ["ip_address"; "include_router_data"] ["ip_address"] kwargs then
    match item "ip_address" kwargs with
    | PStr ip_address =>
        r <~ resolve_ip_to_hostname ip_address (flag "include_router_data" kwargs) ;;
        St.ret (Returns r)
    | _ => St.ret (interpreter_raises AttributeError)
    end
  else St.ret (interpreter_raises TypeError).

(** [self.get_network_info( **kwargs )] *)
Definition call_get_network_info (kwargs : list (string * pyval))
    : Act (outcome ResolutionResult) :=
  if accepts ["target"] ["target"] kwargs then
    r <~ get_network_info (item "target" kwargs) ;;
    St.ret (Returns r)
  else St.ret (interpreter_raises TypeError).

Fixpoint chars (s : string) : list pyval :=
  match s with
  | EmptyString => []
  | String c r => PStr (String c EmptyString) :: chars r
  end.

(** [iter(queries)] *)
Definition iterate (v : pyval) : outcome (list pyval) :=
  match v with
  | PList items => Returns items
  | PStr s => Returns (chars s)
  | PDict d => Returns (map (fun kv => PStr kv.1) d)
  | _ => interpreter_raises TypeError
  end.

(** The loop of [bulk_resolve] over untyped items: an item that is not a
    [str] raises [AttributeError] at its [strip], after the earlier items
    have been resolved. *)
Fixpoint bulk_loop_py (auto_detect_type : bool) (queries : list pyval)
    (results : list ResolutionResult) : Act (outcome (list ResolutionResult)) :=
  match queries with
  | [] => St.ret (Returns results)
  | PStr query :: rest =>
      r <~ resolve_query auto_detect_type query ;;
      bulk_loop_py auto_detect_type rest (results ++ [r])
  | _ :: _ => St.ret (interpreter_raises AttributeError)
  end.

(** [self.bulk_resolve( **kwargs )] *)
Definition call_bulk_resolve (kwargs : list (string * pyval))
    : Act (outcome (list ResolutionResult)) :=
  if accepts ["queries"; "auto_detect_type"] ["queries"] kwargs then
    match iterate (item "queries" kwargs) with
    | Returns items => bulk_loop_py (flag "auto_detect_type" kwargs) items []
    | Raises e => St.ret (Raises e)
    end
  else St.ret (interpreter_raises TypeError).

(** The mapping built by the [except] clause of [execute_function]. *)
Definition execution_failed (function_name : string) (e : exn) : list (string * pyval) :=
  [ ("success", PBool false);
    ("function", PStr function_name);
    ("error", PStr ("Function execution failed: " +:+ exn_text e)) ].

(** [{"success": True, "function": function_name, **asdict(result)}] *)
Definition result_mapping (function_name : string) (r : outcome ResolutionResult)
    : list (string * pyval) :=
  match r with
  | Returns result =>
      dict_update [("success", PBool true); ("function", PStr function_name)]
                  (asdict result)
  | Raises e => execution_failed function_name e
  end.

(** [NetworkResolutionAgent.execute_function] *)
Definition execute_function (function_name : string) (kwargs : list (string * pyval))
    : Act (list (string * pyval)) :=
  if String.eqb function_name "resolve_hostname_to_ip" then
    r <~ call_resolve_hostname_to_ip kwargs ;;
    St.ret (result_mapping function_name r)
  else if String.eqb function_name "resolve_ip_to_hostname" then
    r <~ call_resolve_ip_to_hostname kwargs ;;
    St.ret (result_mapping function_name r)
  else if String.eqb function_name "bulk_resolve" then
    r <~ call_bulk_resolve kwargs ;;
    match r with
    | Returns results =>
        St.ret [ ("success", PBool true);
                 ("function", PStr function_name);
                 ("results", PList (map (fun r => PDict (asdict r)) results));
                 ("count", PInt (Z.of_nat (length results))) ]
    | Raises e => St.ret (execution_failed function_name e)
    end
  else if String.eqb function_name "get_network_info" then
    r <~ call_get_network_info kwargs ;;
    St.ret (result_mapping function_name r)
  else
    St.ret [ ("success", PBool false);
             ("function", PStr function_name);
             ("error", PStr ("Unknown function: " +:+ function_name)) ].

End WithEnv.

End Agent.

(** ** More of [openwrt_query.py]: configuration and the query manager *)

Module RouterManager.

(** [sub in s] for two strings. *)
Fixpoint contains (sub s : string) : bool :=
  String.prefix sub s
  || match s with
     | EmptyString => false
     | String _ r => contains sub r
     end.

(** [try: ... ] followed by more code: the first raise ends the block. *)
Definition and_then {A B} (m : outcome A) (k : A -> outcome B) : outcome B :=
  match m with
  | Returns a => k a
  | Raises e => Raises e
  end.

(** [RouterConfig.default_config] *)
Definition default_config : list (string * pyval) :=
  [ ("router_ip", PStr "192.168.1.1");
    ("router_user", PStr "root");
    ("router_password", PStr "");
    ("ssh_port", PInt 22);
    ("web_port", PInt 80);
    ("use_https", PBool false);
    ("timeout", PInt 30);
    ("method", PStr "ssh") ].

(** The world of the query manager: the [json] library, the disk, the
    optional imports and the SSH session. *)
Record Env := {
  (** [json.load] on the text of the configuration file *)
  json_load : string -> outcome pyval;
  (** the text written by [json.dump(config, f, indent=2)] *)
  json_dump : pyval -> string;
  (** [open(config_file, 'w')] succeeds *)
  can_write : bool;
  (** [import paramiko] succeeds *)
  paramiko_available : bool;
  (** [import requests] succeeds *)
  requests_available : bool;
  (** [ssh.connect(...)] with the five connection arguments, then the output
      of [cat /tmp/dhcp.leases] and of [cat /proc/net/arp] *)
  ssh_session : list pyval -> outcome (string * string);
  (** the text of an exception raised by the interpreter itself *)
  interpreter_text : exn_class -> string -> string
}.

(** The disk holds the text of [config/router_config.json], if the file
    exists. *)
Abbreviation Disk := (St.M (option string)).

Section WithEnv.
Variable E : Env.

(** [key in config] *)
Definition key_in (key : string) (config : pyval) : outcome bool :=
  match config with
  | PDict d => Returns (OpenWRTWeb.is_some (dict_get key d))
  | PList items =>
      Returns (existsb (fun v => match v with
                                 | PStr s => String.eqb s key
                                 | _ => false
                                 end) items)
  | PStr s => Returns (contains key s)
  | _ => Raises (mkExn TypeError (interpreter_text E TypeError key))
  end.

(** [config[key] = value] *)
Definition set_item (key : string) (value : pyval) (config : pyval) : outcome pyval :=
  match config with
  | PDict d => Returns (PDict (dict_set key value d))
  | _ => Raises (mkExn TypeError (interpreter_text E TypeError key))
  end.

(** The [for key, value in self.default_config.items()] loop of
    [load_config]. *)
Fixpoint merge_defaults (defaults : list (string * pyval)) (config : pyval)
    : outcome pyval :=
  match defaults with
  | [] => Returns config
  | (key, value) :: rest =>
      and_then (key_in key config) (fun present =>
        if present then merge_defaults rest config
        else and_then (set_item key value config) (merge_defaults rest))
  end.

(** [RouterConfig.save_config]: a failure to write is logged and
    swallowed. *)
Definition save_config (config : pyval) : Disk unit :=
  if can_write E then St.modify (fun _ => Some (json_dump E config))
  else St.ret tt.

(** [RouterConfig.load_config]: a file that is missing, unreadable or not
    mergeable leads to the default configuration, which is also saved. *)
Definition load_config : Disk pyval :=
  file <~ St.get ;;
  let fallback :=
    save_config (PDict default_config) ;;;
    St.ret (PDict default_config) in
  match file with
  | Some text =>
      match and_then (json_load E text) (merge_defaults default_config) with
      | Returns config => St.ret config
      | Raises _ => fallback
      end
  | None => fallback
  end.

(** [self.config[key]] *)
Definition config_item (key : string) (config : pyval) : outcome pyval :=
  match config with
  | PDict d =>
      match dict_get key d with
      | Some v => Returns v
      | None => Raises (mkExn OtherError (interpreter_text E OtherError key))
      end
  | _ => Raises (mkExn TypeError (interpreter_text E TypeError key))
  end.

(** The keyword arguments of [ssh.connect], evaluated left to right. *)
Fixpoint config_items (keys : list string) (config : pyval) : outcome (list pyval) :=
  match keys with
  | [] => Returns []
  | key :: rest =>
      and_then (config_item key config) (fun v =>
        and_then (config_items rest config) (fun vs => Returns (v :: vs)))
  end.

(** [OpenWRTQuerySSH.query_dhcp_leases] *)
Definition query_dhcp_leases (config : pyval) : outcome (list OpenWRTQuery.RouterDevice) :=
  if paramiko_available E then
    and_then
      (config_items ["router_ip"; "router_user"; "router_password"; "ssh_port"; "timeout"]
                    config)
      (fun args =>
         and_then (ssh_session E args) (fun out =>
           Returns (OpenWRTQuery._parse_dhcp_leases out.1 out.2)))
  else
    Raises (mkExn ImportError
              "paramiko required for SSH connections. Install with: pip install paramiko").

(** [OpenWRTQueryWeb.query_dhcp_clients]: the base URL is assembled and no
    request is made. *)
Definition query_dhcp_clients (config : pyval) : outcome (list OpenWRTQuery.RouterDevice) :=
  if requests_available E then
    and_then (config_item "use_https" config) (fun _ =>
      and_then (config_item "web_port" config) (fun _ =>
        and_then (config_item "router_ip" config) (fun _ =>
          Returns [])))
  else
    Raises (mkExn ImportError
              "requests required for web connections. Install with: pip install requests").

(** The merge loop of [get_connected_devices]: [existing_ips] is taken once,
    before the loop. *)
Definition merge_devices (devices web_devices : list OpenWRTQuery.RouterDevice)
    : list OpenWRTQuery.RouterDevice :=
  let existing_ips : gset string :=
    list_to_set (map OpenWRTQuery.ip_address devices) in
  foldl (fun devices device =>
           if bool_decide (OpenWRTQuery.ip_address device ∈ existing_ips)
           then devices
           else devices ++ [device])
        devices web_devices.

(** [query_method == name] *)
Definition is_method (query_method : pyval) (name : string) : bool :=
  match query_method with
  | PStr s => String.eqb s name
  | _ => false
  end.

(** [RouterQueryManager.get_connected_devices] *)
Definition get_connected_devices (config : pyval) (method : option string)
    : outcome (list OpenWRTQuery.RouterDevice) :=
  and_then
    (match method with
     | Some m => if Py.nonempty m then Returns (PStr m) else config_item "method" config
     | None => config_item "method" config
     end)
    (fun query_method =>
       and_then
         (if is_method query_method "ssh" || is_method query_method "both"
          then query_dhcp_leases config
          else Returns [])
         (fun devices =>
            if is_method query_method "web" || is_method query_method "both"
            then and_then (query_dhcp_clients config) (fun web_devices =>
                   Returns (merge_devices devices web_devices))
            else Returns devices)).

End WithEnv.

End RouterManager.

(** ** More of [modules/openwrt_web.py]: the login handshake *)

Module WebAuth.

(** The router as the login code sees it: each response is its final URL
    and its status code. *)
Record Env := {
  (** [REQUESTS_AVAILABLE] *)
  requests_available : bool;
  (** [session.get(base_url)] *)
  get_main : outcome (string * Z);
  (** [session.post(urljoin(base_url, endpoint), data=login_data)] *)
  post_login : string -> outcome (string * Z)
}.

(** [OpenWRTWebAuth]: the [authenticated] attribute, and the endpoints
    posted to so far, oldest first. *)
Record session := mkSession {
  authenticated : bool;
  posted : list string
}.

Abbreviation Web := (St.M session).

Section WithEnv.
Variable E : Env.

(** [response.status_code == 200 and 'login' not in response.url.lower()] *)
Definition logged_in (response : string * Z) : bool :=
  (response.2 =? 200) && negb (RouterManager.contains "login" (Py.lower response.1)).

Definition post (endpoint : string) : Web (outcome (string * Z)) :=
  fun s => (post_login E endpoint, mkSession (authenticated s) (posted s ++ [endpoint])).

Definition set_authenticated : Web unit :=
  St.modify (fun s => mkSession true (posted s)).

(** The [for endpoint in [...]] loop of [_perform_login]; a raise leaves
    the loop. *)
Fixpoint alternative_logins (endpoints : list string) : Web (outcome bool) :=
  match endpoints with
  | [] => St.ret (Returns false)
  | endpoint :: rest =>
      r <~ post endpoint ;;
      match r with
      | Returns response =>
          if logged_in response then set_authenticated ;;; St.ret (Returns true)
          else alternative_logins rest
      | Raises e => St.ret (Raises e)
      end
  end.

(** The [except requests.RequestException] clause shared by both methods:
    the exception is logged and the method returns [False]. *)
Definition request_guard (r : outcome bool) : outcome bool :=
  match r with
  | Returns b => Returns b
  | Raises e =>
      match exn_kind e with
      | RequestException => Returns false
      | _ => Raises e
      end
  end.

(** [OpenWRTWebAuth._perform_login] *)
Definition _perform_login : Web (outcome bool) :=
  r <~ (first <~ post "/cgi-bin/luci/" ;;
        match first with
        | Returns response =>
            if logged_in response then set_authenticated ;;; St.ret (Returns true)
            else alternative_logins ["/cgi-bin/luci/admin/system/admin"; "/login"]
        | Raises e => St.ret (Raises e)
        end) ;;
  St.ret (request_guard r).

(** [OpenWRTWebAuth.authenticate] *)
Definition authenticate : Web (outcome bool) :=
  if requests_available E then
    r <~ (match get_main E with
          | Returns response =>
              if RouterManager.contains "login" (Py.lower response.1)
                 || (response.2 =? 401)
              then _perform_login
              else if response.2 =? 200
                   then set_authenticated ;;; St.ret (Returns true)
                   else St.ret (Returns false)
          | Raises e => St.ret (Raises e)
          end) ;;
    St.ret (request_guard r)
  else
    St.ret (Raises (mkExn ImportError "requests library required for web interface")).

End WithEnv.

End WebAuth.

(** ** Sample worlds

    Concrete environments on which the definitions above can be run. *)

Module Sample.

Definition is_digit (c : ascii) : bool :=
  let n := N_of_ascii c in ((48 <=? n) && (n <=? 57))%N.

Fixpoint decimal (acc : N) (s : string) : N :=
  match s with
  | EmptyString => acc
  | String c r => decimal (10 * acc + (N_of_ascii c - 48))%N r
  end.

Definition octet (s : string) : bool :=
  Py.nonempty s && (String.length s <=? 3)%nat && Py.all_chars is_digit s
  && (decimal 0 s <=? 255)%N.

(** Four decimal octets separated by dots: the IPv4 literals. *)
Definition dotted_quad (s : string) : bool :=
  match Py.split_on "."%char s with
  | [a; b; c; d] => octet a && octet b && octet c && octet d
  | _ => false
  end.

Definition nano : OpenWRTQuery.RouterDevice :=
  OpenWRTQuery.mkRouterDevice "192.168.1.159" "nano" "aa:bb:cc:dd:ee:ff"
    (Some "1699999999") None.

(** A LAN with one leased device, a resolver that knows [google.com] and
    [8.8.8.8], and a clock that ticks once per reading. *)
Definition lan (backend : nat -> outcome (list OpenWRTQuery.RouterDevice)) : Agent.Env :=
  {| Agent.time_time := fun n => 1000 + Z.of_nat n;
     Agent.router_available := true;
     Agent.router_manager_new := true;
     Agent.get_connected_devices := backend;
     Agent.ip_address_ok := dotted_quad;
     Agent.ip_is_private := fun s => String.prefix "192.168." s;
     Agent.gethostbyname := fun name =>
       if String.eqb name "google.com" then Returns "142.250.70.78"
       else Raises (mkExn GaiError "[Errno -2] Name or service not known");
     Agent.getaddrinfo := fun _ => Returns [2];
     Agent.gethostbyaddr := fun ip =>
       if String.eqb ip "8.8.8.8" then Returns "dns.google"
       else Raises (mkExn HError "[Errno 1] Unknown host");
     Agent.ping_name := fun _ => None;
     Agent.ping_run := fun _ => Returns 0;
     Agent.interpreter_text := fun _ => "error" |}.

Definition router_up : Agent.Env := lan (fun _ => Returns [nano]).

Definition router_down : Agent.Env :=
  lan (fun _ => Raises (mkExn ConnectionError "SSH connection error")).

(** An agent whose cache was filled at time 900. *)
Definition warm : Agent.agent :=
  Agent.mkAgent true true
    (<["192.168.1.159" := "nano"]> (<["nano" := "192.168.1.159"]> ∅)) 900 0 0 [].

(** The same cache, last filled at time 0: stale at time 1000. *)
Definition stale : Agent.agent :=
  Agent.mkAgent true true
    (<["192.168.1.159" := "nano"]> (<["nano" := "192.168.1.159"]> ∅)) 0 0 0 [].

(** A router whose second admin page carries a JSON client list. *)
Definition router_pages : OpenWRTWeb.Env :=
  {| OpenWRTWeb.authenticate := Returns true;
     OpenWRTWeb.session_get := fun endpoint =>
       if String.eqb endpoint "/cgi-bin/luci/admin/network/dhcp"
       then Returns (200, "[clients]")
       else if String.eqb endpoint "/cgi-bin/luci/admin/status/overview"
       then Returns (200, "{broken")
       else Returns (404, "");
     OpenWRTWeb.json_loads := fun text =>
       if String.eqb text "[clients]"
       then Returns (PList [PDict [("ip", PStr "192.168.1.50"); ("name", PStr "printer")]])
       else Raises (mkExn JSONDecodeError "Expecting value");
     OpenWRTWeb.finditer := fun _ _ => [];
     OpenWRTWeb.py_repr := fun _ => "" |}.

Definition locked_out : OpenWRTWeb.Env :=
  {| OpenWRTWeb.authenticate := Returns false;
     OpenWRTWeb.session_get := OpenWRTWeb.session_get router_pages;
     OpenWRTWeb.json_loads := OpenWRTWeb.json_loads router_pages;
     OpenWRTWeb.finditer := fun _ _ => [];
     OpenWRTWeb.py_repr := fun _ => "" |}.

End Sample.

(** ** Vocabulary of the statements *)

Module Words.
Import Py.

Definition blank (s : string) : bool := all_chars isspace s.
Definition word (s : string) : bool :=
  nonempty s && all_chars (fun c => negb (isspace c)) s.

(** The text is empty or begins with a space. *)
Definition startswith_space (s : string) : bool :=
  match s with EmptyString => true | String c _ => isspace c end.

(** Fields written one after the other, each followed by its gap. *)
Fixpoint join_fields (fields : list (string * string)) : string :=
  match fields with
  | [] => EmptyString
  | (w, gap) :: rest => w +:+ gap +:+ join_fields rest
  end.

(** Every field is a word, every gap is blank, and only the last gap may be
    empty. *)
Fixpoint well_spaced (fields : list (string * string)) : bool :=
  match fields with
  | [] => true
  | (w, gap) :: rest =>
      word w && blank gap && well_spaced rest
      && match rest with [] => true | _ => nonempty gap end
  end.

End Words.

Import Words.

(** The two resolution entry points, as calls. *)
Inductive resolution_call :=
| HostnameToIp (hostname : string) (include_router_data : bool)
| IpToHostname (ip_address : string) (include_router_data : bool).

Definition run_call (E : Agent.Env) (c : resolution_call) : St.M Agent.agent Agent.ResolutionResult :=
  match c with
  | HostnameToIp h inc => Agent.resolve_hostname_to_ip E h inc
  | IpToHostname ip inc => Agent.resolve_ip_to_hostname E ip inc
  end.

(** The device directory of a batch of records: lowercase hostname to
    address, and address to hostname, the second kind of entry winning on a
    shared key. *)
Definition directory_of (devices : list OpenWRTQuery.RouterDevice) : gmap string string :=
  Agent.ip_index devices ∪ Agent.hostname_index devices.

(** The reading of the clock that the next call will take first. *)
Definition next_reading (E : Agent.Env) (s : Agent.agent) : Z :=
  Agent.time_time E (Agent.clock_reads s).

(** The agent after [n] further clock readings and nothing else. *)
Definition ticked (n : nat) (s : Agent.agent) : Agent.agent :=
  Agent.mkAgent (Agent.use_router_data s) (Agent.router_manager s)
    (Agent.cached_devices s) (Agent.cache_timestamp s)
    (n + Agent.clock_reads s) (Agent.backend_calls s) (Agent.trace s).

(** The agent after the events [evs] and nothing else. *)
Definition logged (evs : list Agent.event) (s : Agent.agent) : Agent.agent :=
  Agent.mkAgent (Agent.use_router_data s) (Agent.router_manager s)
    (Agent.cached_devices s) (Agent.cache_timestamp s)
    (Agent.clock_reads s) (Agent.backend_calls s) (Agent.trace s ++ evs).

(** [s'] has the directory, timestamp, backend count and configuration of
    [s]. *)
Definition same_directory (s s' : Agent.agent) : Prop :=
  Agent.cached_devices s' = Agent.cached_devices s
  /\ Agent.cache_timestamp s' = Agent.cache_timestamp s
  /\ Agent.backend_calls s' = Agent.backend_calls s
  /\ Agent.use_router_data s' = Agent.use_router_data s
  /\ Agent.router_manager s' = Agent.router_manager s.

(** What one admin page contributes: the devices parsed from a 200
    response, and nothing for any other status or a failed request. *)
Definition endpoint_devices (E : OpenWRTWeb.Env) (endpoint : string)
    : list (list (string * string)) :=
  match OpenWRTWeb.session_get E endpoint with
  | Returns (status_code, text) =>
      if status_code =? 200 then OpenWRTWeb._parse_response E text else []
  | Raises _ => []
  end.

(** A lease record as the parser should leave it: address, MAC and name
    are single words, the name is not the placeholder star, the lease time
    is a word and no interface is set. *)
Definition well_formed_device (d : OpenWRTQuery.RouterDevice) : Prop :=
  word (OpenWRTQuery.ip_address d) = true
  /\ word (OpenWRTQuery.mac_address d) = true
  /\ word (OpenWRTQuery.hostname d) = true
  /\ OpenWRTQuery.hostname d <> "*"
  /\ (exists t, OpenWRTQuery.lease_time d = Some t /\ word t = true)
  /\ OpenWRTQuery.interface d = None.

(** The records of a lease text taken line by line, without trimming. *)
Definition text_records (s : string) : list OpenWRTQuery.RouterDevice :=
  flat_map OpenWRTQuery.lease_line_records (Py.split_on Py.newline s).

(** The events of the router-data block: a backend call or a cache lookup. *)
Definition router_event (e : Agent.event) : bool :=
  match e with
  | Agent.EvBackend | Agent.EvCacheLookup _ => true
  | _ => false
  end.

(** A result whose fields agree: a success carries a value and no error, a
    failure an error and no value. *)
Definition coherent (r : Agent.ResolutionResult) : Prop :=
  (Agent.success r = true /\ is_Some (Agent.result r) /\ Agent.error r = None)
  \/ (Agent.success r = false /\ Agent.result r = None /\ is_Some (Agent.error r)).

(** The call reaches the router-data block when the agent has router data
    on: it asks for it and, for an address, gets past validation. *)
Definition consults_router (E : Agent.Env) (c : resolution_call) : bool :=
  match c with
  | HostnameToIp _ inc => inc
  | IpToHostname ip inc => inc && Agent._is_valid_ip E (Py.strip ip)
  end.

(** The parameters of the four callable functions: all of them, and the
    ones without default. *)
Definition signature (function_name : string) : option (list string * list string) :=
  if String.eqb function_name "resolve_hostname_to_ip"
  then Some (["hostname"; "include_router_data"], ["hostname"])
  else if String.eqb function_name "resolve_ip_to_hostname"
  then Some (["ip_address"; "include_router_data"], ["ip_address"])
  else if String.eqb function_name "bulk_resolve"
  then Some (["queries"; "auto_detect_type"], ["queries"])
  else if String.eqb function_name "get_network_info"
  then Some (["target"], ["target"])
  else None.

(** A scraped device carries the three fields every consumer reads. *)
Definition has_required_fields (d : list (string * string)) : Prop :=
  is_Some (dict_get "ip_address" d)
  /\ is_Some (dict_get "hostname" d)
  /\ is_Some (dict_get "mac_address" d).

(** The JSON objects among [items]; with [need_ip], only those that have
    the key ["ip"]. *)
Definition object_items (need_ip : bool) (items : list pyval)
    : list (list (string * pyval)) :=
  flat_map (fun item =>
              match item with
              | PDict d =>
                  if need_ip && negb (OpenWRTWeb.is_some (dict_get "ip" d))
                  then [] else [d]
              | _ => []
              end) items.

(** The keys under which a JSON object may hold its device array, in the
    order they are read. *)
Definition device_array_keys : list string :=
  ["clients"; "devices"; "dhcp_clients"; "leases"].

(** The login endpoints in the order [_perform_login] posts to them. *)
Definition login_endpoints : list string :=
  ["/cgi-bin/luci/"; "/cgi-bin/luci/admin/system/admin"; "/login"].

(** One pass over login endpoints: the endpoints posted to, up to the
    first that logs in or raises, and how the pass ends. *)
Fixpoint login_pass (E : WebAuth.Env) (endpoints : list string)
    : list string * outcome bool :=
  match endpoints with
  | [] => ([], Returns false)
  | endpoint :: rest =>
      match WebAuth.post_login E endpoint with
      | Returns response =>
          if WebAuth.logged_in response then ([endpoint], Returns true)
          else (endpoint :: (login_pass E rest).1, (login_pass E rest).2)
      | Raises e => ([endpoint], Raises e)
      end
  end.

(** The main page sends the visitor to the login form. *)
Definition asks_login (response : string * Z) : bool :=
  RouterManager.contains "login" (Py.lower response.1) || (response.2 =? 401).

(** ** More sample worlds *)

Module SampleWeb.

(** A router that redirects to its login page and accepts the form on the
    second endpoint. *)
Definition second_door : WebAuth.Env :=
  {| WebAuth.requests_available := true;
     WebAuth.get_main := Returns ("http://192.168.1.1/cgi-bin/luci/Login", 200);
     WebAuth.post_login := fun endpoint =>
       if String.eqb endpoint "/cgi-bin/luci/admin/system/admin"
       then Returns ("http://192.168.1.1/cgi-bin/luci/admin/system/admin", 200)
       else Returns ("http://192.168.1.1/cgi-bin/luci/login", 200) |}.

(** A router that stops answering after the main page. *)
Definition hangs_up : WebAuth.Env :=
  {| WebAuth.requests_available := true;
     WebAuth.get_main := Returns ("http://192.168.1.1/", 401);
     WebAuth.post_login := fun _ => Raises (mkExn RequestException "timed out") |}.

Definition fresh_session : WebAuth.session := WebAuth.mkSession false [].

(** A workstation with both optional libraries and a router that serves
    one lease over SSH; [json] reads back what it wrote. *)
Definition workstation (requests : bool) : RouterManager.Env :=
  {| RouterManager.json_load := fun text =>
       if String.eqb text "defaults" then Returns (PDict RouterManager.default_config)
       else if String.eqb text "method: both"
       then Returns (PDict [("method", PStr "both")])
       else Raises (mkExn JSONDecodeError "Expecting value");
     RouterManager.json_dump := fun _ => "defaults";
     RouterManager.can_write := true;
     RouterManager.paramiko_available := true;
     RouterManager.requests_available := requests;
     RouterManager.ssh_session := fun _ =>
       Returns ("1699999999 aa:bb:cc:dd:ee:ff 192.168.1.50 *", "");
     RouterManager.interpreter_text := fun _ key => key |}.

(** Two records as a web query could report them: one for the address of
    [Sample.nano], one for a printer. *)
Definition nano_by_web : OpenWRTQuery.RouterDevice :=
  OpenWRTQuery.mkRouterDevice "192.168.1.159" "Unknown" "aa:bb:cc:dd:ee:ff" None None.

Definition printer : OpenWRTQuery.RouterDevice :=
  OpenWRTQuery.mkRouterDevice "192.168.1.50" "printer" "11:22:33:44:55:66" None None.

End SampleWeb.

(** * Properties *)

(** ** Strings *)

Section StringFacts.
Import Py.

Lemma split_ws_blank s : blank s = true -> split_ws s = [].
Proof.
  unfold blank. induction s as [|c r IH]; simpl; [done|].
  intros [Hc Hr]%andb_prop. rewrite Hc. auto.
Qed.

Lemma split_ws_blank_app g s : blank g = true -> split_ws (g +:+ s) = split_ws s.
Proof.
  unfold blank. induction g as [|c r IH]; simpl; [done|].
  intros [Hc Hr]%andb_prop. rewrite Hc. auto.
Qed.

Lemma split_ws_lstrip s : split_ws (lstrip s) = split_ws s.
Proof.
  induction s as [|c r IH]; simpl; [done|].
  destruct (isspace c) eqn:Hc; [done|]. simpl. by rewrite Hc.
Qed.

Lemma rstrip_empty_blank s : nonempty (rstrip s) = false -> blank s = true.
Proof.
  induction s as [|c r IH]; simpl; [done|].
  destruct (isspace c) eqn:Hc; simpl.
  - destruct (nonempty (rstrip r)) eqn:Hr; simpl; [done|].
    intros _. unfold blank in *. simpl. rewrite Hc. auto.
  - done.
Qed.

Lemma rstrip_head r d r' : rstrip r = String d r' -> exists t, r = String d t.
Proof.
  destruct r as [|e t]; simpl; [done|].
  destruct (isspace e && negb (nonempty (rstrip t))); [done|].
  intros [= -> _]. eauto.
Qed.

Lemma split_ws_cons c r :
  split_ws (String c r) =
  if isspace c then split_ws r
  else match r with
       | EmptyString => [String c EmptyString]
       | String d _ =>
           if isspace d then String c EmptyString :: split_ws r
           else match split_ws r with
                | w :: ws => String c w :: ws
                | [] => [String c EmptyString]
                end
       end.
Proof. reflexivity. Qed.

Lemma split_ws_rstrip s : split_ws (rstrip s) = split_ws s.
Proof.
  induction s as [|c r IH]; [done|]. simpl rstrip.
  destruct (isspace c) eqn:Hc; simpl andb.
  - destruct (nonempty (rstrip r)) eqn:Hr; simpl negb; cbv iota.
    + rewrite !split_ws_cons, Hc. done.
    + rewrite split_ws_cons, Hc. symmetry. apply split_ws_blank.
      by apply rstrip_empty_blank.
  - destruct (rstrip r) as [|d r'] eqn:Hr.
    + assert (Hb : blank r = true) by (apply rstrip_empty_blank; by rewrite Hr).
      rewrite !split_ws_cons, Hc. destruct r as [|e t]; [done|].
      rewrite (split_ws_blank _ Hb).
      unfold blank in Hb. simpl in Hb. apply andb_prop in Hb as [He Ht].
      by rewrite He.
    + destruct (rstrip_head r d r' Hr) as [t ->].
      rewrite (split_ws_cons c (String d r')), (split_ws_cons c (String d t)), Hc.
      rewrite IH. done.
Qed.

Lemma split_ws_strip s : split_ws (strip s) = split_ws s.
Proof. unfold strip. by rewrite split_ws_rstrip, split_ws_lstrip. Qed.

Lemma strip_empty_split_ws s : nonempty (strip s) = false -> split_ws s = [].
Proof.
  intros H. rewrite <- split_ws_strip. unfold strip in *.
  rewrite split_ws_rstrip. apply split_ws_blank. by apply rstrip_empty_blank.
Qed.

(** A word followed by nothing or by a space is the first field. *)
Lemma split_ws_word w t :
  word w = true ->
  startswith_space t = true ->
  split_ws (w +:+ t) = w :: split_ws t.
Proof.
  unfold word. destruct w as [|c w]; [done|]. simpl nonempty. simpl andb.
  revert c. induction w as [|d w IH]; intros c Hw Ht.
  - simpl in Hw. rewrite andb_true_r in Hw. apply negb_true_iff in Hw.
    change (String c EmptyString +:+ t) with (String c t).
    rewrite split_ws_cons, Hw. destruct t as [|e t]; [done|].
    simpl in Ht. by rewrite Ht.
  - simpl in Hw. apply andb_prop in Hw as [Hc Hd].
    change (String c (String d w) +:+ t) with (String c (String d w +:+ t)).
    rewrite split_ws_cons. apply negb_true_iff in Hc. rewrite Hc.
    change (String d w +:+ t) with (String d (w +:+ t)) at 1.
    cbv iota. pose proof Hd as Hd'. simpl in Hd'. apply andb_prop in Hd' as [Hd' _].
    apply negb_true_iff in Hd'. rewrite Hd'.
    change (String d (w +:+ t)) with (String d w +:+ t).
    rewrite (IH d); [done|by simpl|done].
Qed.

Lemma split_ws_join_fields pre fields :
  blank pre = true ->
  well_spaced fields = true ->
  split_ws (pre +:+ join_fields fields) = map fst fields.
Proof.
  intros Hpre Hf. rewrite split_ws_blank_app by done. clear pre Hpre.
  induction fields as [|[w gap] rest IH]; [done|].
  simpl in Hf. apply andb_prop in Hf as [Hf Hgap].
  apply andb_prop in Hf as [Hf Hrest]. apply andb_prop in Hf as [Hw Hg].
  simpl join_fields. destruct rest as [|[w' gap'] rest].
  - simpl join_fields. rewrite split_ws_word; [|done|].
    + rewrite split_ws_blank_app by done. done.
    + destruct gap as [|e g]; [done|]. unfold blank in Hg. simpl in Hg.
      apply andb_prop in Hg as [He _]. done.
  - rewrite split_ws_word; [|done|].
    + rewrite split_ws_blank_app by done. rewrite (IH Hrest). done.
    + destruct gap as [|e g]; [done|]. unfold blank in Hg. simpl in Hg.
      apply andb_prop in Hg as [He _]. done.
Qed.

Lemma split_on_absent sep s : mem_char sep s = false -> split_on sep s = [s].
Proof.
  induction s as [|c r IH]; simpl; [done|].
  intros [Hc Hr]%orb_false_elim. rewrite Hc, (IH Hr). done.
Qed.

Lemma mem_char_lstrip c s : mem_char c s = false -> mem_char c (lstrip s) = false.
Proof.
  induction s as [|d r IH]; simpl; [done|].
  intros [Hd Hr]%orb_false_elim. destruct (isspace d); [auto|].
  simpl. by rewrite Hd, Hr.
Qed.

Lemma mem_char_rstrip c s : mem_char c s = false -> mem_char c (rstrip s) = false.
Proof.
  induction s as [|d r IH]; simpl; [done|].
  intros [Hd Hr]%orb_false_elim.
  destruct (isspace d && negb (nonempty (rstrip r))); [done|].
  simpl. by rewrite Hd, IH.
Qed.

End StringFacts.


(** ** The SSH backend's lease parser *)

Section LeaseParser.
Import Py OpenWRTQuery.

Lemma lease_step_records devices line :
  (if nonempty (strip line) then
     let parts := split_ws line in
     if (4 <=? length parts)%nat then
       let lease_time := list_get parts 0 in
       let mac_address := list_get parts 1 in
       let ip_address := list_get parts 2 in
       let hostname :=
         if String.eqb (list_get parts 3) "*"
         then "device-" +:+ List.last (split_on "."%char ip_address) EmptyString
         else list_get parts 3 in
       devices ++ [mkRouterDevice ip_address hostname mac_address (Some lease_time) None]
     else devices
   else devices)
  = devices ++ lease_line_records line.
Proof.
  unfold lease_line_records.
  destruct (nonempty (strip line)) eqn:Hne.
  - cbv zeta. destruct (split_ws line) as [|a [|b [|c [|d l]]]]; simpl;
      by rewrite ?app_nil_r.
  - rewrite (strip_empty_split_ws line Hne). by rewrite app_nil_r.
Qed.

Lemma lease_loop_records lines : forall devices,
  foldl (fun devices line =>
           if nonempty (strip line) then
             let parts := split_ws line in
             if (4 <=? length parts)%nat then
               let lease_time := list_get parts 0 in
               let mac_address := list_get parts 1 in
               let ip_address := list_get parts 2 in
               let hostname :=
                 if String.eqb (list_get parts 3) "*"
                 then "device-" +:+ List.last (split_on "."%char ip_address) EmptyString
                 else list_get parts 3 in
               devices ++ [mkRouterDevice ip_address hostname mac_address (Some lease_time) None]
             else devices
           else devices) devices lines
  = devices ++ flat_map lease_line_records lines.
Proof.
  induction lines as [|line lines IH]; intros devices; simpl foldl.
  - by rewrite app_nil_r.
  - rewrite lease_step_records, IH. simpl. by rewrite app_assoc.
Qed.

Lemma parse_dhcp_leases_flat_map leases arp :
  _parse_dhcp_leases leases arp
  = flat_map lease_line_records (split_on newline (strip leases)).
Proof. unfold _parse_dhcp_leases. cbv zeta. by rewrite lease_loop_records. Qed.

Lemma lease_line_records_strip line :
  lease_line_records (strip line) = lease_line_records line.
Proof. unfold lease_line_records. by rewrite split_ws_strip. Qed.

(** C4.  The lease parser handles its input line by line, in order: a line
    with at least four whitespace-separated fields [lease mac ip host ...]
    gives exactly the record with those fields, the name being
    [device-<text after the last dot of ip>] when [host] is ["*"]; a line
    with fewer fields, or a blank one, gives none. *)
Theorem parse_dhcp_leases_line_records :
  (forall leases arp,
      _parse_dhcp_leases leases arp
      = flat_map lease_line_records (split_on newline (strip leases)))
  /\ (forall line arp,
         mem_char newline line = false ->
         _parse_dhcp_leases line arp = lease_line_records line)
  /\ (forall pre fields lease mac ip host more,
         blank pre = true -> well_spaced fields = true ->
         map fst fields = lease :: mac :: ip :: host :: more ->
         lease_line_records (pre +:+ join_fields fields)
         = [mkRouterDevice ip
              (if String.eqb host "*"
               then "device-" +:+ List.last (split_on "."%char ip) EmptyString
               else host)
              mac (Some lease) None])
  /\ (forall pre fields,
         blank pre = true -> well_spaced fields = true ->
         (length fields < 4)%nat ->
         lease_line_records (pre +:+ join_fields fields) = [])
  /\ (forall arp,
         _parse_dhcp_leases "1699999999 aa:bb:cc:dd:ee:ff 192.168.1.50 *" arp
         = [mkRouterDevice "192.168.1.50" "device-50" "aa:bb:cc:dd:ee:ff"
              (Some "1699999999") None]).
Proof.
  split; [exact parse_dhcp_leases_flat_map|].
  split.
  { intros line arp Hnl. rewrite parse_dhcp_leases_flat_map.
    rewrite split_on_absent.
    - simpl. by rewrite app_nil_r, lease_line_records_strip.
    - unfold strip. by apply mem_char_rstrip, mem_char_lstrip. }
  split.
  { intros pre fields lease mac ip host more Hpre Hf Hfields.
    unfold lease_line_records. by rewrite split_ws_join_fields, Hfields. }
  split.
  { intros pre fields Hpre Hf Hlen.
    unfold lease_line_records. rewrite split_ws_join_fields by done.
    destruct fields as [|a [|b [|c [|d l]]]]; simpl in *; try done; lia. }
  intros arp. reflexivity.
Qed.

Lemma parse_dhcp_leases_line_records_witness :
  _parse_dhcp_leases "  3600 11:22:33:44:55:66 10.0.0.7 printer extra " "" =
    [mkRouterDevice "10.0.0.7" "printer" "11:22:33:44:55:66" (Some "3600") None]
  /\ lease_line_records "3600 11:22:33:44:55:66 10.0.0.7" = [].
Proof.
  destruct parse_dhcp_leases_line_records as (_ & Hline & Hrec & Hfew & _).
  split.
  - rewrite Hline by reflexivity.
    apply (Hrec "  " [("3600", " "); ("11:22:33:44:55:66", " "); ("10.0.0.7", " ");
                        ("printer", " "); ("extra", " ")]
                "3600" "11:22:33:44:55:66" "10.0.0.7" "printer" ["extra"]);
      reflexivity.
  - apply (Hfew "" [("3600", " "); ("11:22:33:44:55:66", " "); ("10.0.0.7", "")]);
      [reflexivity | reflexivity | simpl; lia].
Defined.

(** C5.  The records produced by the lease parser do not depend on the ARP
    table text: whatever [arp_map] holds, no record reads it. *)
Theorem parse_dhcp_leases_ignores_arp :
  (forall leases arp1 arp2,
      _parse_dhcp_leases leases arp1 = _parse_dhcp_leases leases arp2)
  /\ _parse_dhcp_leases "1699999999 aa:bb:cc:dd:ee:ff 192.168.1.50 *"
       ("IP address HW type Flags HW address Mask Device" +:+ String newline
          "192.168.1.50 0x1 0x2 11:22:33:44:55:66 * br-lan")
     = _parse_dhcp_leases "1699999999 aa:bb:cc:dd:ee:ff 192.168.1.50 *" "".
Proof.
  split; [|reflexivity].
  intros leases arp1 arp2. rewrite !parse_dhcp_leases_flat_map. done.
Qed.

End LeaseParser.

(** ** The device directory cache *)

Section CacheFacts.
Import Agent.
Variable E : Env.

Ltac run :=
  unfold resolve_hostname_to_ip, resolve_ip_to_hostname, from_router,
    _refresh_router_cache, cache_lookup, cache_nonempty, new_result,
    call_backend, emit, time_now, St.bind, St.ret, St.get, St.modify,
    set_cached_devices, set_cache_timestamp, next_reading, ticked, directory_of.

(** The refresh in closed form. *)
Lemma refresh_router_cache_eq s :
  _refresh_router_cache E s =
  let now := next_reading E s in
  if (now - cache_timestamp s >? cache_ttl) && router_manager s then
    match get_connected_devices E (backend_calls s) with
    | Returns devices =>
        (true,
         mkAgent (use_router_data s) (router_manager s) (directory_of devices) now
                 (S (clock_reads s)) (S (backend_calls s)) (trace s ++ [EvBackend]))
    | Raises _ =>
        (negb (bool_decide (cached_devices s = ∅)),
         mkAgent (use_router_data s) (router_manager s) (cached_devices s)
                 (cache_timestamp s) (S (clock_reads s)) (S (backend_calls s))
                 (trace s ++ [EvBackend]))
    end
  else (negb (bool_decide (cached_devices s = ∅)), ticked 1 s).
Proof.
  run. cbn.
  destruct (time_time E (clock_reads s) - cache_timestamp s >? cache_ttl); cbn; [|done].
  destruct (router_manager s); cbn; [|done].
  destruct (get_connected_devices E (backend_calls s)); done.
Qed.

Lemma refresh_within_ttl s :
  next_reading E s - cache_timestamp s <= cache_ttl ->
  _refresh_router_cache E s = (negb (bool_decide (cached_devices s = ∅)), ticked 1 s).
Proof.
  intros H. rewrite refresh_router_cache_eq. cbv zeta.
  destruct (Z.gtb_spec (next_reading E s - cache_timestamp s) cache_ttl); [lia|done].
Qed.

Local Arguments _refresh_router_cache : simpl never.

Local Arguments _refresh_router_cache : simpl never.

Ltac steps :=
  unfold cache_lookup, new_result, emit, time_now, St.bind, St.ret, St.get, St.modify.

Lemma same_directory_refl s : same_directory s s.
Proof. by repeat split. Qed.

Lemma same_directory_trans s1 s2 s3 :
  same_directory s1 s2 -> same_directory s2 s3 -> same_directory s1 s3.
Proof.
  unfold same_directory. intros (?&?&?&?&?) (?&?&?&?&?).
  repeat split; congruence.
Qed.

Lemma same_directory_ticked n s : same_directory s (ticked n s).
Proof. by repeat split. Qed.

(** The router-data block in closed form. *)
Lemma from_router_eq key guard s :
  from_router E key guard s =
  let fr := _refresh_router_cache E s in
  if fr.1 then
    let sl := logged [EvCacheLookup key] fr.2 in
    match cached_devices fr.2 !! key with
    | Some v =>
        if guard v then
          (Some (mkResult true (PStr key) (Some v) "router_data"
                   (Some [("cache_age", of_time (next_reading E sl - cache_timestamp sl))])
                   None (next_reading E (ticked 1 sl))),
           ticked 2 sl)
        else (None, sl)
    | None => (None, sl)
    end
  else (None, fr.2).
Proof.
  unfold from_router. steps.
  destruct (_refresh_router_cache E s) as [fresh sr]. cbn.
  destruct fresh; [|done].
  destruct (cached_devices sr !! key) as [v|]; [|done].
  destruct (guard v); done.
Qed.

(** The DNS block answers with source [dns] and leaves the directory alone. *)
Lemma forward_lookup_spec name s :
  let rs := forward_lookup E name s in
  source rs.1 = "dns" /\ query rs.1 = PStr name /\ same_directory s rs.2.
Proof.
  unfold forward_lookup. steps.
  destruct (gethostbyname E name) as [ip|e]; cbn.
  - by repeat split.
  - destruct (exn_kind e); by repeat split.
Qed.

(** The reverse block answers with source [reverse_dns] or
    [ping_resolution] and leaves the directory alone. *)
Lemma reverse_lookup_spec ip s :
  let rs := reverse_lookup E ip s in
  (source rs.1 = "reverse_dns" \/ source rs.1 = "ping_resolution")
  /\ query rs.1 = PStr ip /\ same_directory s rs.2.
Proof.
  unfold reverse_lookup. steps.
  destruct (gethostbyaddr E ip) as [name|e]; cbn.
  - repeat split; auto.
  - destruct (exn_kind e); cbn; try (repeat split; auto; fail).
    destruct (_is_private_ip E ip); cbn; [|repeat split; auto].
    destruct (ping_name E ip) as [n|]; cbn; [|repeat split; auto].
    destruct (Py.nonempty n); cbn; repeat split; auto.
Qed.

Lemma resolve_hostname_to_ip_eq h inc s :
  resolve_hostname_to_ip E h inc s =
  let key := Py.lower (Py.strip h) in
  if inc && use_router_data s then
    let fr := from_router E key (_is_valid_ip E) s in
    match fr.1 with
    | Some r => (r, fr.2)
    | None => forward_lookup E key fr.2
    end
  else forward_lookup E key s.
Proof.
  unfold resolve_hostname_to_ip. unfold St.bind at 1 2, St.get. cbv zeta.
  destruct (inc && use_router_data s).
  - destruct (from_router E _ _ s) as [[r|] s']; done.
  - done.
Qed.

Lemma resolve_ip_to_hostname_eq ip inc s :
  resolve_ip_to_hostname E ip inc s =
  let key := Py.strip ip in
  if _is_valid_ip E key then
    if inc && use_router_data s then
      let fr := from_router E key (fun v => negb (_is_valid_ip E v)) s in
      match fr.1 with
      | Some r => (r, fr.2)
      | None => reverse_lookup E key fr.2
      end
    else reverse_lookup E key s
  else
    (mkResult false (PStr key) None "validation" None (Some "Invalid IP address format")
              (next_reading E s),
     ticked 1 s).
Proof.
  unfold resolve_ip_to_hostname. cbv zeta.
  destruct (_is_valid_ip E (Py.strip ip)); cbn [negb]; [|done].
  unfold St.bind at 1 2, St.get.
  destruct (inc && use_router_data s).
  - destruct (from_router E _ _ s) as [[r|] s']; done.
  - done.
Qed.

(** A refresh that reports failure leaves an empty directory behind. *)
Lemma refresh_false_empty s :
  (_refresh_router_cache E s).1 = false ->
  cached_devices (_refresh_router_cache E s).2 = ∅.
Proof.
  rewrite refresh_router_cache_eq. cbv zeta.
  destruct (_ && _); [destruct (get_connected_devices E _)|]; cbn; try done.
  all: intros H%negb_false_iff; by apply bool_decide_eq_true in H.
Qed.

Lemma from_router_some key guard s r :
  (from_router E key guard s).1 = Some r ->
  exists v,
    cached_devices (_refresh_router_cache E s).2 !! key = Some v
    /\ guard v = true
    /\ success r = true /\ result r = Some v
    /\ source r = "router_data" /\ query r = PStr key.
Proof.
  rewrite from_router_eq. cbv zeta.
  destruct (_refresh_router_cache E s) as [fresh sr]. cbn.
  destruct fresh; [|done].
  destruct (cached_devices sr !! key) as [v|]; [|done].
  destruct (guard v) eqn:Hg; [|done].
  intros [= <-]. exists v. by repeat split.
Qed.

Lemma from_router_hit key guard s v :
  cached_devices (_refresh_router_cache E s).2 !! key = Some v ->
  guard v = true ->
  exists r,
    (from_router E key guard s).1 = Some r
    /\ success r = true /\ result r = Some v
    /\ source r = "router_data" /\ query r = PStr key.
Proof.
  intros Hv Hg. rewrite from_router_eq. cbv zeta.
  destruct (_refresh_router_cache E s).1 eqn:Hf.
  - rewrite Hv, Hg. eexists. by repeat split.
  - apply refresh_false_empty in Hf. rewrite Hf in Hv. by rewrite lookup_empty in Hv.
Qed.

Lemma from_router_miss key guard s :
  match cached_devices (_refresh_router_cache E s).2 !! key with
  | Some v => guard v = false
  | None => True
  end ->
  (from_router E key guard s).1 = None.
Proof.
  rewrite from_router_eq. cbv zeta.
  destruct (_refresh_router_cache E s) as [fresh sr]. cbn.
  destruct fresh; [|done].
  destruct (cached_devices sr !! key) as [v|]; [|done].
  by intros ->.
Qed.

(** After its refresh the router-data block leaves the directory alone. *)
Lemma from_router_same_directory key guard s :
  same_directory (_refresh_router_cache E s).2 (from_router E key guard s).2.
Proof.
  rewrite from_router_eq. cbv zeta.
  destruct (_refresh_router_cache E s) as [fresh sr]. cbn.
  destruct fresh; [|apply same_directory_refl].
  destruct (cached_devices sr !! key) as [v|]; [|by repeat split].
  destruct (guard v); by repeat split.
Qed.

(** Either resolver changes the directory only through the refresh it may
    run first. *)
Lemma run_call_directory c s :
  same_directory s (run_call E c s).2
  \/ same_directory (_refresh_router_cache E s).2 (run_call E c s).2.
Proof.
  destruct c as [h inc|ip inc]; unfold run_call.
  - rewrite resolve_hostname_to_ip_eq. cbv zeta.
    destruct (inc && use_router_data s).
    + right. pose proof (from_router_same_directory (Py.lower (Py.strip h)) (_is_valid_ip E) s) as Hfr.
      destruct (from_router E _ _ s) as [[r|] s']; cbn in *; [done|].
      eapply same_directory_trans; [exact Hfr|]. apply forward_lookup_spec.
    + left. apply forward_lookup_spec.
  - rewrite resolve_ip_to_hostname_eq. cbv zeta.
    destruct (_is_valid_ip E (Py.strip ip)); [|left; apply same_directory_ticked].
    destruct (inc && use_router_data s).
    + right. pose proof (from_router_same_directory (Py.strip ip) (fun v => negb (_is_valid_ip E v)) s) as Hfr.
      destruct (from_router E _ _ s) as [[r|] s']; cbn in *; [done|].
      eapply same_directory_trans; [exact Hfr|]. apply reverse_lookup_spec.
    + left. apply reverse_lookup_spec.
Qed.

Lemma run_call_within_ttl c s :
  next_reading E s - cache_timestamp s <= cache_ttl ->
  same_directory s (run_call E c s).2.
Proof.
  intros H. destruct (run_call_directory c s) as [Hs|Hs]; [done|].
  rewrite (refresh_within_ttl s H) in Hs. cbn in Hs.
  eapply same_directory_trans; [apply (same_directory_ticked 1)|exact Hs].
Qed.

(** C1.  A resolution call made while the cache is within its time-to-live
    leaves the device directory and its timestamp as they were and does not
    invoke the router backend; so for two successive calls, the second
    within the window of the state the first left, the directory after the
    second is the directory after the first and the backend is not invoked
    again, and when the first is within the window too nothing changed from
    the start. *)
Theorem cache_refresh_idempotent_within_ttl (c1 c2 : resolution_call) (s : agent) :
  let s1 := (run_call E c1 s).2 in
  let s2 := (run_call E c2 s1).2 in
  next_reading E s1 - cache_timestamp s1 <= cache_ttl ->
  (cached_devices s2 = cached_devices s1
   /\ cache_timestamp s2 = cache_timestamp s1
   /\ backend_calls s2 = backend_calls s1)
  /\ (next_reading E s - cache_timestamp s <= cache_ttl ->
      cached_devices s1 = cached_devices s
      /\ cached_devices s2 = cached_devices s
      /\ backend_calls s2 = backend_calls s).
Proof.
  intros s1 s2 H2.
  destruct (run_call_within_ttl c2 s1 H2) as (Hc & Ht & Hb & _).
  split; [done|].
  intros H1. destruct (run_call_within_ttl c1 s H1) as (Hc1 & Ht1 & Hb1 & _).
  fold s1 in Hc1, Hb1. fold s2 in Hc, Hb. repeat split; congruence.
Qed.

(** C2.  A stale refresh with a backend that answers replaces the directory
    by the one built from the answer alone and sets the timestamp to the
    reading taken; with a backend that raises, directory and timestamp stay
    as they were and a lookup in the same call is still served from the old
    directory; in every case the state after a refresh carries either the
    old directory with the old timestamp or the new directory with the new
    one. *)
Theorem cache_refresh_atomic (s : agent) :
  let now := next_reading E s in
  let rs := _refresh_router_cache E s in
  (forall devices,
      now - cache_timestamp s > cache_ttl -> router_manager s = true ->
      get_connected_devices E (backend_calls s) = Returns devices ->
      rs.1 = true
      /\ cached_devices rs.2 = directory_of devices
      /\ cache_timestamp rs.2 = now)
  /\ (forall e,
         now - cache_timestamp s > cache_ttl -> router_manager s = true ->
         get_connected_devices E (backend_calls s) = Raises e ->
         cached_devices rs.2 = cached_devices s
         /\ cache_timestamp rs.2 = cache_timestamp s
         /\ (forall h v,
                use_router_data s = true ->
                cached_devices s !! Py.lower (Py.strip h) = Some v ->
                _is_valid_ip E v = true ->
                let r := (resolve_hostname_to_ip E h true s).1 in
                success r = true /\ result r = Some v /\ source r = "router_data")
         /\ (forall ip v,
                use_router_data s = true ->
                _is_valid_ip E (Py.strip ip) = true ->
                cached_devices s !! Py.strip ip = Some v ->
                _is_valid_ip E v = false ->
                let r := (resolve_ip_to_hostname E ip true s).1 in
                success r = true /\ result r = Some v /\ source r = "router_data"))
  /\ ((cached_devices rs.2 = cached_devices s
       /\ cache_timestamp rs.2 = cache_timestamp s)
      \/ (exists devices,
             get_connected_devices E (backend_calls s) = Returns devices
             /\ cached_devices rs.2 = directory_of devices
             /\ cache_timestamp rs.2 = now)).
Proof.
  intros now rs. subst rs now. split; [|split].
  - intros devices Hstale Hrm Hb. rewrite refresh_router_cache_eq. cbv zeta.
    destruct (Z.gtb_spec (next_reading E s - cache_timestamp s) cache_ttl); [|lia].
    rewrite Hrm, Hb. done.
  - intros e Hstale Hrm Hb.
    assert (Hcache : cached_devices (_refresh_router_cache E s).2 = cached_devices s
                     /\ cache_timestamp (_refresh_router_cache E s).2 = cache_timestamp s).
    { rewrite refresh_router_cache_eq. cbv zeta.
      destruct (Z.gtb_spec (next_reading E s - cache_timestamp s) cache_ttl); [|lia].
      rewrite Hrm, Hb. done. }
    destruct Hcache as [Hc Ht]. split; [done|]. split; [done|]. split.
    + intros h v Huse Hv Hvalid. cbv zeta.
      rewrite resolve_hostname_to_ip_eq. cbv zeta. rewrite Huse. cbn [andb].
      destruct (from_router_hit (Py.lower (Py.strip h)) (_is_valid_ip E) s v)
        as (r & Hr & ? & ? & ? & ?); [by rewrite Hc|done|].
      rewrite Hr. done.
    + intros ip v Huse Hip Hv Hvalid. cbv zeta.
      rewrite resolve_ip_to_hostname_eq. cbv zeta. rewrite Hip, Huse. cbn [andb].
      destruct (from_router_hit (Py.strip ip) (fun v => negb (_is_valid_ip E v)) s v)
        as (r & Hr & ? & ? & ? & ?); [by rewrite Hc|by rewrite Hvalid|].
      rewrite Hr. done.
  - rewrite refresh_router_cache_eq. cbv zeta.
    destruct (_ && _); [|by left].
    destruct (get_connected_devices E (backend_calls s)) as [devices|e]; [|by left].
    right. by exists devices.
Qed.

(** C3.  With router data enabled, [resolve_hostname_to_ip] looks up its
    trimmed, lowercased argument in the (refreshed if stale) directory and
    answers from it exactly when the entry is a valid IP literal; an entry
    that is not one is a miss and the answer comes from DNS.
    [resolve_ip_to_hostname] looks up its trimmed argument and answers from
    the directory exactly when the entry is not a valid IP literal.  So a
    directory with [nano -> 192.168.1.159] answers a query for [NANO] with
    that address from [router_data]. *)
Theorem router_lookup_type_guarded (s : agent) :
  let cache := cached_devices (_refresh_router_cache E s).2 in
  (forall h v,
      use_router_data s = true ->
      cache !! Py.lower (Py.strip h) = Some v ->
      let r := (resolve_hostname_to_ip E h true s).1 in
      if _is_valid_ip E v
      then success r = true /\ result r = Some v /\ source r = "router_data"
      else source r = "dns")
  /\ (forall h inc,
         let r := (resolve_hostname_to_ip E h inc s).1 in
         source r = "router_data" ->
         exists v,
           cache !! Py.lower (Py.strip h) = Some v /\ _is_valid_ip E v = true
           /\ success r = true /\ result r = Some v)
  /\ (forall ip v,
         use_router_data s = true ->
         _is_valid_ip E (Py.strip ip) = true ->
         cache !! Py.strip ip = Some v ->
         let r := (resolve_ip_to_hostname E ip true s).1 in
         if _is_valid_ip E v
         then source r = "reverse_dns" \/ source r = "ping_resolution"
         else success r = true /\ result r = Some v /\ source r = "router_data")
  /\ (forall ip inc,
         let r := (resolve_ip_to_hostname E ip inc s).1 in
         source r = "router_data" ->
         exists v,
           cache !! Py.strip ip = Some v /\ _is_valid_ip E v = false
           /\ success r = true /\ result r = Some v)
  /\ (use_router_data s = true ->
      _is_valid_ip E "192.168.1.159" = true ->
      cache !! "nano" = Some "192.168.1.159" ->
      let r := (resolve_hostname_to_ip E "NANO" true s).1 in
      success r = true /\ result r = Some "192.168.1.159" /\ source r = "router_data")
  /\ (next_reading E s - cache_timestamp s <= cache_ttl -> cache = cached_devices s).
Proof.
  intros cache.
  assert (Hhost : forall h v,
             use_router_data s = true ->
             cache !! Py.lower (Py.strip h) = Some v ->
             let r := (resolve_hostname_to_ip E h true s).1 in
             if _is_valid_ip E v
             then success r = true /\ result r = Some v /\ source r = "router_data"
             else source r = "dns").
  { intros h v Huse Hv. cbv zeta.
    rewrite resolve_hostname_to_ip_eq. cbv zeta. rewrite Huse. cbn [andb].
    destruct (_is_valid_ip E v) eqn:Hvalid.
    - destruct (from_router_hit (Py.lower (Py.strip h)) (_is_valid_ip E) s v Hv Hvalid)
        as (r & Hr & ? & ? & ? & ?).
      rewrite Hr. done.
    - rewrite (from_router_miss (Py.lower (Py.strip h)) (_is_valid_ip E) s).
      + apply forward_lookup_spec.
      + fold cache. by rewrite Hv. }
  split; [exact Hhost|]. split; [|split; [|split; [|split]]].
  - intros h inc. cbv zeta. rewrite resolve_hostname_to_ip_eq. cbv zeta.
    destruct (inc && use_router_data s).
    + destruct (from_router E _ _ s).1 as [r|] eqn:Hr.
      * apply from_router_some in Hr as (v & ? & ? & ? & ? & ? & ?).
        intros _. by exists v.
      * intros Hsrc.
        pose proof (forward_lookup_spec (Py.lower (Py.strip h))
                      (from_router E (Py.lower (Py.strip h)) (_is_valid_ip E) s).2)
          as (Hdns & _).
        cbv zeta in Hdns. rewrite Hdns in Hsrc. done.
    + intros Hsrc.
      pose proof (forward_lookup_spec (Py.lower (Py.strip h)) s) as (Hdns & _).
      cbv zeta in Hdns. rewrite Hdns in Hsrc. done.
  - intros ip v Huse Hip Hv. cbv zeta.
    rewrite resolve_ip_to_hostname_eq. cbv zeta. rewrite Hip, Huse. cbn [andb].
    destruct (_is_valid_ip E v) eqn:Hvalid.
    + rewrite (from_router_miss (Py.strip ip) (fun v => negb (_is_valid_ip E v)) s).
      * apply reverse_lookup_spec.
      * fold cache. rewrite Hv. by rewrite Hvalid.
    + destruct (from_router_hit (Py.strip ip) (fun v => negb (_is_valid_ip E v)) s v Hv)
        as (r & Hr & ? & ? & ? & ?); [by rewrite Hvalid|].
      rewrite Hr. done.
  - intros ip inc. cbv zeta. rewrite resolve_ip_to_hostname_eq. cbv zeta.
    destruct (_is_valid_ip E (Py.strip ip)); [|done].
    destruct (inc && use_router_data s).
    + destruct (from_router E _ _ s).1 as [r|] eqn:Hr.
      * apply from_router_some in Hr as (v & ? & Hg & ? & ? & ? & ?).
        intros _. exists v. apply negb_true_iff in Hg. done.
      * intros Hsrc.
        pose proof (reverse_lookup_spec (Py.strip ip)
                      (from_router E (Py.strip ip) (fun v => negb (_is_valid_ip E v)) s).2)
          as ([Hr'|Hr'] & _); cbv zeta in Hr'; rewrite Hr' in Hsrc; done.
    + intros Hsrc.
      pose proof (reverse_lookup_spec (Py.strip ip) s) as ([Hr'|Hr'] & _);
        cbv zeta in Hr'; rewrite Hr' in Hsrc; done.
  - intros Huse Hvalid Hv.
    pose proof (Hhost "NANO" "192.168.1.159" Huse Hv) as H.
    cbv zeta in H. by rewrite Hvalid in H.
  - intros Hfresh. subst cache. by rewrite (refresh_within_ttl s Hfresh).
Qed.

(** C7 (as amended).  When the trimmed argument is not a valid IP literal,
    [resolve_ip_to_hostname] fails with source [validation] after one clock
    reading for the result's timestamp and nothing else: no event (no cache
    lookup, no backend call, no DNS, no ping) and no change to the
    directory. *)
Theorem resolve_ip_validates_trimmed_first (ip : string) (inc : bool) (s : agent) :
  _is_valid_ip E (Py.strip ip) = false ->
  let rs := resolve_ip_to_hostname E ip inc s in
  success rs.1 = false
  /\ source rs.1 = "validation"
  /\ rs.2 = ticked 1 s
  /\ trace rs.2 = trace s
  /\ backend_calls rs.2 = backend_calls s
  /\ cached_devices rs.2 = cached_devices s.
Proof.
  intros H. cbv zeta. rewrite resolve_ip_to_hostname_eq. cbv zeta. rewrite H. done.
Qed.

End CacheFacts.

Lemma cache_refresh_idempotent_within_ttl_witness :
  let s1 := (run_call Sample.router_up (HostnameToIp "NANO" true) Sample.stale).2 in
  let s2 := (run_call Sample.router_up (IpToHostname "192.168.1.159" true) s1).2 in
  Agent.backend_calls s1 = 1%nat
  /\ Agent.cached_devices s2 = Agent.cached_devices s1
  /\ Agent.backend_calls s2 = 1%nat.
Proof.
  cbv zeta.
  destruct (cache_refresh_idempotent_within_ttl Sample.router_up
              (HostnameToIp "NANO" true) (IpToHostname "192.168.1.159" true) Sample.stale)
    as [(Hc & _ & Hb) _].
  - vm_compute. discriminate.
  - split; [reflexivity|]. split; [exact Hc|]. rewrite Hb. reflexivity.
Defined.

Lemma cache_refresh_atomic_witness :
  Agent.cached_devices (Agent._refresh_router_cache Sample.router_up Sample.stale).2
  = directory_of [Sample.nano]
  /\ Agent.cached_devices (Agent._refresh_router_cache Sample.router_down Sample.stale).2
     = Agent.cached_devices Sample.stale
  /\ Agent.source (Agent.resolve_hostname_to_ip Sample.router_down "NANO" true Sample.stale).1
     = "router_data".
Proof.
  split; [|split].
  - destruct (cache_refresh_atomic Sample.router_up Sample.stale) as (H & _).
    apply (H [Sample.nano]); [vm_compute; reflexivity|reflexivity|reflexivity].
  - destruct (cache_refresh_atomic Sample.router_down Sample.stale) as (_ & H & _).
    apply (H (mkExn ConnectionError "SSH connection error"));
      [vm_compute; reflexivity|reflexivity|reflexivity].
  - destruct (cache_refresh_atomic Sample.router_down Sample.stale) as (_ & H & _).
    destruct (H (mkExn ConnectionError "SSH connection error")) as (_ & _ & Hh & _);
      [vm_compute; reflexivity|reflexivity|reflexivity|].
    apply (Hh "NANO" "192.168.1.159"); reflexivity.
Defined.

Lemma router_lookup_type_guarded_witness :
  let r := (Agent.resolve_hostname_to_ip Sample.router_up "NANO" true Sample.warm).1 in
  Agent.success r = true /\ Agent.result r = Some "192.168.1.159"
  /\ Agent.source r = "router_data".
Proof.
  destruct (router_lookup_type_guarded Sample.router_up Sample.warm)
    as (_ & _ & _ & _ & H & _).
  apply H; reflexivity.
Defined.

Lemma resolve_ip_validates_trimmed_first_witness :
  let rs := Agent.resolve_ip_to_hostname Sample.router_up "not-an-ip" true Sample.warm in
  Agent.success rs.1 = false /\ Agent.source rs.1 = "validation"
  /\ Agent.trace rs.2 = [].
Proof.
  destruct (resolve_ip_validates_trimmed_first Sample.router_up "not-an-ip" true Sample.warm)
    as (H1 & H2 & _ & H3 & _); [reflexivity|].
  split; [exact H1|]. split; [exact H2|exact H3].
Defined.

(** C7 as stated fails: an argument that is no IP literal itself but
    becomes one when trimmed is resolved, not rejected. *)
Lemma resolve_ip_untrimmed_counterexample :
  ~ (forall (E : Agent.Env) (ip : string) (inc : bool) (s : Agent.agent),
        Agent._is_valid_ip E ip = false ->
        let rs := Agent.resolve_ip_to_hostname E ip inc s in
        Agent.success rs.1 = false /\ Agent.source rs.1 = "validation"
        /\ Agent.trace rs.2 = Agent.trace s).
Proof.
  intros H.
  destruct (H Sample.router_up " 8.8.8.8" true Sample.warm eq_refl) as (Hs & _).
  vm_compute in Hs. discriminate.
Qed.

(** ** Dictionaries *)

Section DictFacts.
Context {V : Type}.
Implicit Types (d : list (string * V)) (k : string) (v : V).

Lemma dict_get_set k' k v d :
  dict_get k' (dict_set k v d) = if String.eqb k k' then Some v else dict_get k' d.
Proof.
  induction d as [|[k0 v0] d IH]; simpl.
  - done.
  - destruct (String.eqb_spec k0 k) as [->|Hne]; simpl.
    + by destruct (String.eqb k k').
    + destruct (String.eqb_spec k0 k') as [->|Hne'].
      * destruct (String.eqb_spec k k') as [->|_]; [done|done].
      * done.
Qed.

Lemma dict_get_setdefault k' k v d :
  dict_get k' (dict_setdefault k v d) =
  match dict_get k' d with
  | Some x => Some x
  | None => if String.eqb k k' then Some v else None
  end.
Proof.
  unfold dict_setdefault. destruct (dict_get k d) as [x|] eqn:Hk.
  - destruct (dict_get k' d) eqn:Hk'; [done|].
    destruct (String.eqb_spec k k') as [->|_]; [congruence|done].
  - rewrite dict_get_set. destruct (String.eqb_spec k k') as [->|_].
    + by rewrite Hk.
    + by destruct (dict_get k' d).
Qed.

End DictFacts.

(** ** The web backend *)

Section WebFacts.
Import OpenWRTWeb.
Variable E : Env.

Lemma scan_keys_get data sk keys : forall device f,
  dict_get f (scan_keys E data sk keys device) =
  if String.eqb sk f then
    match first_nonempty data keys with
    | Some v => Some (py_str E v)
    | None => dict_get f device
    end
  else dict_get f device.
Proof.
  unfold first_nonempty.
  induction keys as [|key rest IH]; intros device f; simpl.
  - by destruct (String.eqb sk f).
  - destruct (dict_get key data) as [v|] eqn:Hk; [destruct (truthy v) eqn:Hv|].
    + rewrite dict_get_set. by destruct (String.eqb sk f).
    + apply IH.
    + apply IH.
Qed.

(** C9 (as amended).  For each canonical field and its list of candidate
    raw keys, the normalized record holds the text of the first candidate
    that is present with a non-empty value; when there is none,
    [ip_address], [hostname] and [mac_address] hold ["Unknown"] and
    [lease_time] is absent. *)
Theorem extract_device_info_normalizes (data : list (string * pyval))
    (field : string) (candidates : list string) :
  In (field, candidates) key_mappings ->
  dict_get field (_extract_device_info E data) =
  match first_nonempty data candidates with
  | Some v => Some (py_str E v)
  | None => if String.eqb field "lease_time" then None else Some "Unknown"
  end.
Proof.
  intros Hin. unfold _extract_device_info. cbv zeta.
  rewrite !dict_get_setdefault. unfold key_mappings in *. cbn [foldl fst snd].
  rewrite !scan_keys_get.
  simpl in Hin.
  destruct Hin as [[= <- <-]|[[= <- <-]|[[= <- <-]|[[= <- <-]|[]]]]]; cbn [String.eqb Ascii.eqb Bool.eqb];
    match goal with |- context [first_nonempty ?d ?c] => destruct (first_nonempty d c) end;
    reflexivity.
Qed.

End WebFacts.

Lemma extract_device_info_normalizes_witness :
  dict_get "hostname"
    (OpenWRTWeb._extract_device_info Sample.router_pages
       [("ip", PStr "192.168.1.50"); ("hostname", PStr ""); ("name", PStr "printer")])
  = Some "printer".
Proof.
  apply (extract_device_info_normalizes Sample.router_pages
           [("ip", PStr "192.168.1.50"); ("hostname", PStr ""); ("name", PStr "printer")]
           "hostname" ["hostname"; "name"; "device_name"; "client_name"]).
  simpl. auto.
Defined.

(** C9 as stated fails for [lease_time]: with no lease key in the raw
    mapping the field is left out, not set to ["Unknown"]. *)
Lemma extract_device_info_lease_counterexample :
  ~ (forall (E : OpenWRTWeb.Env) (data : list (string * pyval))
            (field : string) (candidates : list string),
        In (field, candidates) OpenWRTWeb.key_mappings ->
        dict_get field (OpenWRTWeb._extract_device_info E data) =
        Some (match OpenWRTWeb.first_nonempty data candidates with
              | Some v => OpenWRTWeb.py_str E v
              | None => "Unknown"
              end)).
Proof.
  intros H.
  specialize (H Sample.router_pages [("ip", PStr "192.168.1.50")]
                "lease_time" ["lease"; "lease_time"; "expires"; "expiry"]).
  vm_compute in H. discriminate H. auto 10.
Qed.

Section ProbeFacts.
Import OpenWRTWeb.
Variable E : Env.

Lemma query_endpoint_eq endpoint probed :
  _query_endpoint E endpoint probed =
  (match session_get E endpoint with
   | Returns (status_code, text) =>
       Returns (if status_code =? 200 then _parse_response E text else [])
   | Raises e =>
       match exn_kind e with
       | RequestException => Returns []
       | _ => Raises e
       end
   end,
   probed ++ [endpoint]).
Proof.
  unfold _query_endpoint, probe, St.bind, St.modify, St.ret.
  destruct (session_get E endpoint) as [[status text]|e].
  - by destruct (status =? 200).
  - by destruct (exn_kind e).
Qed.

(** The loop, started with no devices, returns the devices of the first
    endpoint that has any, having probed the endpoints up to that one; or
    nothing, having probed them all. *)
Lemma probe_loop_first eps : forall probed,
  (exists before endpoint after,
      eps = before ++ endpoint :: after
      /\ Forall (fun e => endpoint_devices E e = []) before
      /\ endpoint_devices E endpoint <> []
      /\ probe_loop E eps [] probed
         = (endpoint_devices E endpoint, probed ++ before ++ [endpoint]))
  \/ (Forall (fun e => endpoint_devices E e = []) eps
      /\ probe_loop E eps [] probed = ([], probed ++ eps)).
Proof.
  induction eps as [|ep rest IH]; intros probed.
  - right. split; [constructor|]. simpl. by rewrite app_nil_r.
  - simpl probe_loop. unfold St.bind. rewrite query_endpoint_eq.
    assert (Hcont :
      endpoint_devices E ep = [] ->
      (exists before endpoint after,
          ep :: rest = before ++ endpoint :: after
          /\ Forall (fun e => endpoint_devices E e = []) before
          /\ endpoint_devices E endpoint <> []
          /\ probe_loop E rest [] (probed ++ [ep])
             = (endpoint_devices E endpoint, probed ++ before ++ [endpoint]))
      \/ (Forall (fun e => endpoint_devices E e = []) (ep :: rest)
          /\ probe_loop E rest [] (probed ++ [ep]) = ([], probed ++ ep :: rest))).
    { intros Hep. destruct (IH (probed ++ [ep])) as [(b & e & a & -> & Hb & He & Hl)|[Hall Hl]].
      - left. exists (ep :: b), e, a. repeat split; [by constructor|done|].
        rewrite Hl. by rewrite <- !app_assoc.
      - right. split; [by constructor|]. rewrite Hl. by rewrite <- app_assoc. }
    unfold endpoint_devices in Hcont at 1 |- *.
    destruct (session_get E ep) as [[status text]|e] eqn:Hget.
    + destruct (if status =? 200 then _parse_response E text else []) as [|d ds] eqn:Hd.
      * apply Hcont. done.
      * left. exists [], ep, rest. repeat split; [constructor| |].
        -- unfold endpoint_devices. rewrite Hget, Hd. done.
        -- unfold endpoint_devices. rewrite Hget, Hd. done.
    + destruct (exn_kind e); by apply Hcont.
Qed.

(** C6.  When authentication fails the query raises a connection error and
    no endpoint is probed.  When it succeeds the query never raises: the
    five endpoints are probed in their order up to and including the first
    one that yields a device, whose devices are returned; an endpoint whose
    response fails to parse, is empty or cannot be fetched counts for
    nothing and the next one is tried; if none yields a device all five are
    probed and the result is empty. *)
Theorem get_dhcp_clients_first_endpoint (probed : list string) :
  (authenticate E = Returns false ->
   get_dhcp_clients E probed
   = (Raises (mkExn ConnectionError "Failed to authenticate to router web interface"),
      probed))
  /\ (authenticate E = Returns true ->
      (exists before endpoint after,
          endpoints = before ++ endpoint :: after
          /\ Forall (fun e => endpoint_devices E e = []) before
          /\ endpoint_devices E endpoint <> []
          /\ get_dhcp_clients E probed
             = (Returns (endpoint_devices E endpoint), probed ++ before ++ [endpoint]))
      \/ (Forall (fun e => endpoint_devices E e = []) endpoints
          /\ get_dhcp_clients E probed = (Returns [], probed ++ endpoints)))
  /\ (forall content e,
         json_loads E content = Raises e ->
         Py.startswith_char "{"%char (Py.strip content)
         || Py.startswith_char "["%char (Py.strip content) = true ->
         _parse_response E content = [])
  /\ (forall endpoint e,
         session_get E endpoint = Raises e -> endpoint_devices E endpoint = [])
  /\ (forall endpoint text,
         session_get E endpoint = Returns (200, text) ->
         endpoint_devices E endpoint = _parse_response E text
         /\ (_query_endpoint E endpoint probed).1 = Returns (_parse_response E text))
  /\ length endpoints = 5%nat.
Proof.
  split; [|split; [|split; [|split; [|split]]]].
  - intros Hauth. unfold get_dhcp_clients. by rewrite Hauth.
  - intros Hauth. unfold get_dhcp_clients. rewrite Hauth. unfold St.bind, St.ret.
    destruct (probe_loop_first endpoints probed)
      as [(b & e & a & Heq & Hb & He & Hl)|[Hall Hl]].
    + left. exists b, e, a. rewrite Hl. done.
    + right. rewrite Hl. done.
  - intros content e Hjson Hshape. unfold _parse_response. by rewrite Hshape, Hjson.
  - intros endpoint e Hget. unfold endpoint_devices. by rewrite Hget.
  - intros endpoint text Hget. rewrite query_endpoint_eq.
    unfold endpoint_devices. rewrite Hget. done.
  - reflexivity.
Qed.

End ProbeFacts.

Lemma get_dhcp_clients_first_endpoint_witness :
  OpenWRTWeb.get_dhcp_clients Sample.locked_out []
  = (Raises (mkExn ConnectionError "Failed to authenticate to router web interface"), [])
  /\ OpenWRTWeb._parse_response Sample.router_pages "{broken" = []
  /\ exists devices,
       OpenWRTWeb.get_dhcp_clients Sample.router_pages []
       = (Returns devices,
          ["/cgi-bin/luci/admin/status/overview"; "/cgi-bin/luci/admin/network/dhcp"]).
Proof.
  split; [|split].
  - destruct (get_dhcp_clients_first_endpoint Sample.locked_out []) as (H & _).
    apply H. reflexivity.
  - destruct (get_dhcp_clients_first_endpoint Sample.router_pages []) as (_ & _ & H & _).
    apply (H "{broken" (mkExn JSONDecodeError "Expecting value")); reflexivity.
  - destruct (get_dhcp_clients_first_endpoint Sample.router_pages []) as (_ & H & _).
    destruct (H eq_refl) as [(b & e & a & Heq & Hb & He & Hl)|[Hall _]].
    + eexists. vm_compute. reflexivity.
    + exfalso. apply Forall_cons in Hall as [_ Hall]. apply Forall_cons in Hall as [Hbad _].
      vm_compute in Hbad. discriminate.
Defined.

(** ** Bulk resolution and the function-call interface *)

Section BulkFacts.
Import Agent.
Variable E : Env.

Lemma bulk_loop_acc auto queries : forall acc s,
  bulk_loop E auto queries acc s =
  (acc ++ (bulk_loop E auto queries [] s).1, (bulk_loop E auto queries [] s).2).
Proof.
  induction queries as [|q rest IH]; intros acc s; simpl.
  - unfold St.ret. simpl. by rewrite app_nil_r.
  - unfold St.bind. destruct (resolve_query E auto q s) as [r s'].
    rewrite (IH (acc ++ [r])), (IH ([] ++ [r])). simpl. by rewrite <- app_assoc.
Qed.

Lemma bulk_resolve_cons auto q rest s :
  bulk_resolve E (q :: rest) auto s =
  let rs := resolve_query E auto q s in
  (rs.1 :: (bulk_resolve E rest auto rs.2).1, (bulk_resolve E rest auto rs.2).2).
Proof.
  unfold bulk_resolve. simpl. unfold St.bind.
  destruct (resolve_query E auto q s) as [r s']. by rewrite bulk_loop_acc.
Qed.

Lemma bulk_resolve_length auto queries : forall s,
  length (bulk_resolve E queries auto s).1 = length queries.
Proof.
  induction queries as [|q rest IH]; intros s; [done|].
  rewrite bulk_resolve_cons. cbv zeta. simpl. by rewrite IH.
Qed.

Lemma bulk_resolve_lookup auto queries : forall i q s,
  queries !! i = Some q ->
  (bulk_resolve E queries auto s).1 !! i
  = Some (resolve_query E auto q (bulk_resolve E (take i queries) auto s).2).1.
Proof.
  induction queries as [|q0 rest IH]; intros i q s Hq; [done|].
  rewrite bulk_resolve_cons. cbv zeta. destruct i as [|i]; simpl in *.
  - by injection Hq as ->.
  - rewrite (IH i q _ Hq). by rewrite bulk_resolve_cons.
Qed.

Lemma resolve_hostname_to_ip_query h inc s :
  query (resolve_hostname_to_ip E h inc s).1 = PStr (Py.lower (Py.strip h)).
Proof.
  rewrite resolve_hostname_to_ip_eq. cbv zeta.
  destruct (inc && use_router_data s); [|apply forward_lookup_spec].
  destruct (from_router E _ _ s).1 as [r|] eqn:Hr.
  - by apply from_router_some in Hr as (v & _ & _ & _ & _ & _ & ?).
  - apply forward_lookup_spec.
Qed.

Lemma resolve_ip_to_hostname_query ip inc s :
  query (resolve_ip_to_hostname E ip inc s).1 = PStr (Py.strip ip).
Proof.
  rewrite resolve_ip_to_hostname_eq. cbv zeta.
  destruct (_is_valid_ip E (Py.strip ip)); [|done].
  destruct (inc && use_router_data s); [|apply reverse_lookup_spec].
  destruct (from_router E _ _ s).1 as [r|] eqn:Hr.
  - by apply from_router_some in Hr as (v & _ & _ & _ & _ & _ & ?).
  - apply reverse_lookup_spec.
Qed.

(** C8.  [bulk_resolve] returns one result per query, in the order of the
    queries and without merging repeated ones: the i-th result is what the
    resolver chosen for the i-th query returns in the state left by the
    queries before it, and it carries that query (normalized) in its
    [query] field.  With auto-detection the resolver is
    [resolve_ip_to_hostname] for a valid IP literal and
    [resolve_hostname_to_ip] otherwise; without it, always
    [resolve_hostname_to_ip]. *)
Theorem bulk_resolve_in_order (queries : list string) (auto : bool) (s : agent) :
  let results := (bulk_resolve E queries auto s).1 in
  length results = length queries
  /\ (forall i q,
         queries !! i = Some q ->
         let before := (bulk_resolve E (take i queries) auto s).2 in
         results !! i
         = Some (if auto && _is_valid_ip E q
                 then (resolve_ip_to_hostname E q true before).1
                 else (resolve_hostname_to_ip E q true before).1)
         /\ (query <$> results !! i)
            = Some (PStr (if auto && _is_valid_ip E q
                          then Py.strip q else Py.lower (Py.strip q)))).
Proof.
  cbv zeta. split; [apply bulk_resolve_length|].
  intros i q Hq. rewrite (bulk_resolve_lookup auto queries i q s Hq).
  unfold resolve_query.
  destruct auto; cbn [andb]; [destruct (_is_valid_ip E q)|]; simpl;
    by rewrite ?resolve_ip_to_hostname_query, ?resolve_hostname_to_ip_query.
Qed.

End BulkFacts.

Lemma bulk_resolve_in_order_witness :
  let results :=
    (Agent.bulk_resolve Sample.router_up ["8.8.8.8"; "google.com"; "8.8.8.8"] true
       Sample.warm).1 in
  length results = 3%nat
  /\ (Agent.source <$> results !! 0%nat) = Some "reverse_dns"
  /\ (Agent.query <$> results !! 1%nat) = Some (PStr "google.com")
  /\ (Agent.query <$> results !! 2%nat) = Some (PStr "8.8.8.8").
Proof.
  cbv zeta.
  destruct (bulk_resolve_in_order Sample.router_up ["8.8.8.8"; "google.com"; "8.8.8.8"]
              true Sample.warm) as [Hlen Hith].
  split; [exact Hlen|]. split; [|split].
  - destruct (Hith 0%nat "8.8.8.8" eq_refl) as [H0 _]. rewrite H0. reflexivity.
  - destruct (Hith 1%nat "google.com" eq_refl) as [_ H1]. rewrite H1. reflexivity.
  - destruct (Hith 2%nat "8.8.8.8" eq_refl) as [_ H2]. rewrite H2. reflexivity.
Defined.

Section ExecuteFacts.
Import Agent.
Variable E : Env.

Lemma result_mapping_success name r :
  dict_get "success" (result_mapping name (Returns r)) = Some (PBool (success r))
  /\ dict_get "function" (result_mapping name (Returns r)) = Some (PStr name).
Proof. split; reflexivity. Qed.

(** C10.  For [resolve_hostname_to_ip], [resolve_ip_to_hostname] and
    [get_network_info], when the call returns a result, the [success] entry
    of the mapping returned by [execute_function] is the [success] field of
    that result: the [True] written first is overwritten when the fields of
    the result are merged in.  So a DNS miss is reported with
    [success = False].  For [bulk_resolve] the [success] entry is [True]
    whenever the call returns, whatever the results hold. *)
Theorem execute_function_success_flag (kwargs : list (string * pyval)) (s : agent) :
  (forall r s',
      call_resolve_hostname_to_ip E kwargs s = (Returns r, s') ->
      let ms := execute_function E "resolve_hostname_to_ip" kwargs s in
      dict_get "success" ms.1 = Some (PBool (success r)) /\ ms.2 = s')
  /\ (forall r s',
         call_resolve_ip_to_hostname E kwargs s = (Returns r, s') ->
         let ms := execute_function E "resolve_ip_to_hostname" kwargs s in
         dict_get "success" ms.1 = Some (PBool (success r)) /\ ms.2 = s')
  /\ (forall r s',
         call_get_network_info E kwargs s = (Returns r, s') ->
         let ms := execute_function E "get_network_info" kwargs s in
         dict_get "success" ms.1 = Some (PBool (success r)) /\ ms.2 = s')
  /\ (forall results s',
         call_bulk_resolve E kwargs s = (Returns results, s') ->
         let ms := execute_function E "bulk_resolve" kwargs s in
         dict_get "success" ms.1 = Some (PBool true)
         /\ dict_get "results" ms.1 = Some (PList (map (fun r => PDict (asdict r)) results))
         /\ ms.2 = s')
  /\ (forall h e,
         use_router_data s = false ->
         gethostbyname E (Py.lower (Py.strip h)) = Raises e ->
         dict_get "success"
           (execute_function E "resolve_hostname_to_ip" [("hostname", PStr h)] s).1
         = Some (PBool false)).
Proof.
  split; [|split; [|split; [|split]]].
  - intros r s' H. unfold execute_function. cbn [String.eqb Ascii.eqb Bool.eqb].
    unfold St.bind, St.ret. rewrite H. split; [apply result_mapping_success|done].
  - intros r s' H. unfold execute_function. cbn [String.eqb Ascii.eqb Bool.eqb].
    unfold St.bind, St.ret. rewrite H. split; [apply result_mapping_success|done].
  - intros r s' H. unfold execute_function. cbn [String.eqb Ascii.eqb Bool.eqb].
    unfold St.bind, St.ret. rewrite H. split; [apply result_mapping_success|done].
  - intros results s' H. unfold execute_function. cbn [String.eqb Ascii.eqb Bool.eqb].
    unfold St.bind, St.ret. rewrite H. done.
  - intros h e Huse Hdns. unfold execute_function. cbn [String.eqb Ascii.eqb Bool.eqb].
    unfold St.bind, St.ret, call_resolve_hostname_to_ip. cbn.
    unfold St.bind, St.ret.
    rewrite resolve_hostname_to_ip_eq. cbv zeta. rewrite Huse. cbn [andb].
    unfold forward_lookup, emit, new_result, time_now, St.bind, St.ret.
    rewrite Hdns. destruct (exn_kind e); reflexivity.
Qed.

End ExecuteFacts.

Lemma execute_function_success_flag_witness :
  dict_get "success"
    (Agent.execute_function Sample.router_up "resolve_hostname_to_ip"
       [("hostname", PStr "nowhere.invalid")] Sample.warm).1
  = Some (PBool false)
  /\ dict_get "success"
       (Agent.execute_function Sample.router_up "bulk_resolve"
          [("queries", PList [PStr "nowhere.invalid"])] Sample.warm).1
     = Some (PBool true).
Proof.
  split.
  - destruct (execute_function_success_flag Sample.router_up
                [("hostname", PStr "nowhere.invalid")] Sample.warm) as (H & _).
    destruct (Agent.call_resolve_hostname_to_ip Sample.router_up
                [("hostname", PStr "nowhere.invalid")] Sample.warm) as [o s'] eqn:Hcall.
    vm_compute in Hcall. injection Hcall as <- <-.
    destruct (H _ _ eq_refl) as [Hs _]. rewrite Hs. reflexivity.
  - destruct (execute_function_success_flag Sample.router_up
                [("queries", PList [PStr "nowhere.invalid"])] Sample.warm)
      as (_ & _ & _ & H & _).
    destruct (Agent.call_bulk_resolve Sample.router_up
                [("queries", PList [PStr "nowhere.invalid"])] Sample.warm) as [o s'] eqn:Hcall.
    vm_compute in Hcall. injection Hcall as <- <-.
    destruct (H _ _ eq_refl) as [Hs _]. exact Hs.
Defined.

(** * Further properties *)

(** ** The lease parser: shape of the records, and texts put together *)

Section LeaseParserMore.
Import Py OpenWRTQuery.

Lemma split_ws_words s : Forall (fun w => word w = true) (split_ws s).
Proof.
  induction s as [|c r IH]; [constructor|].
  rewrite split_ws_cons. destruct (isspace c) eqn:Hc; [done|].
  assert (Hone : word (String c EmptyString) = true)
    by (unfold word; simpl; by rewrite Hc).
  destruct r as [|d t]; [by repeat constructor|].
  destruct (isspace d) eqn:Hd; [by constructor|].
  destruct (split_ws (String d t)) as [|w ws]; [by repeat constructor|].
  apply Forall_cons in IH as [Hw Hws]. constructor; [|done].
  unfold word in *. simpl. rewrite Hc. simpl.
  by apply andb_prop in Hw as [_ ->].
Qed.

Lemma all_chars_split_on p sep s :
  all_chars p s = true -> Forall (fun w => all_chars p w = true) (split_on sep s).
Proof.
  induction s as [|c r IH]; simpl; [by repeat constructor|].
  intros [Hc Hr]%andb_prop. specialize (IH Hr).
  destruct (Ascii.eqb c sep); [by constructor|].
  destruct (split_on sep r) as [|w ws]; [repeat constructor; simpl; by rewrite Hc|].
  apply Forall_cons in IH as [Hw Hws]. constructor; [|done].
  simpl. by rewrite Hc, Hw.
Qed.

Lemma all_chars_last p l :
  Forall (fun w => all_chars p w = true) l -> all_chars p (List.last l EmptyString) = true.
Proof.
  induction l as [|w [|w' l] IH]; [done| |].
  - by intros [? _]%Forall_cons.
  - intros [_ H]%Forall_cons. by apply IH.
Qed.

Lemma all_chars_app p a b :
  all_chars p (a +:+ b) = all_chars p a && all_chars p b.
Proof.
  induction a as [|c a IH]; simpl; [done|]. by rewrite IH, andb_assoc.
Qed.

Lemma lease_line_records_well_formed line d :
  In d (lease_line_records line) -> well_formed_device d.
Proof.
  unfold lease_line_records.
  pose proof (split_ws_words line) as Hw.
  destruct (split_ws line) as [|lease [|mac [|ip [|host rest]]]]; try done.
  apply Forall_cons in Hw as [Hlease Hw]. apply Forall_cons in Hw as [Hmac Hw].
  apply Forall_cons in Hw as [Hip Hw]. apply Forall_cons in Hw as [Hhost _].
  intros [<-|[]]. unfold well_formed_device. simpl.
  repeat split; try done; [| |by exists lease].
  - destruct (String.eqb_spec host "*") as [->|_]; [|done].
    unfold word. simpl. rewrite all_chars_app. simpl.
    apply all_chars_last, all_chars_split_on.
    unfold word in Hip. by apply andb_prop in Hip as [_ ->].
  - destruct (String.eqb_spec host "*") as [->|Hne]; [done|done].
Qed.

(** Every record the lease parser returns is well formed: address, MAC and
    name are non-empty and free of whitespace, the name is never the star
    of the lease file, the lease time is set and the interface is not. *)
Theorem parse_dhcp_leases_well_formed (leases arp : string) (d : RouterDevice) :
  In d (_parse_dhcp_leases leases arp) -> well_formed_device d.
Proof.
  rewrite parse_dhcp_leases_flat_map. intros (line & _ & Hd)%in_flat_map.
  by apply (lease_line_records_well_formed line).
Qed.

Lemma split_on_nonempty sep s : split_on sep s <> [].
Proof.
  destruct s as [|c r]; simpl; [done|].
  destruct (Ascii.eqb c sep); [done|]. by destruct (split_on sep r).
Qed.

Lemma split_on_cons_other sep c r :
  Ascii.eqb c sep = false ->
  split_on sep (String c r)
  = String c (hd EmptyString (split_on sep r)) :: tl (split_on sep r).
Proof.
  intros H. simpl. rewrite H.
  pose proof (split_on_nonempty sep r). by destruct (split_on sep r).
Qed.

Lemma text_records_eq s :
  text_records s
  = lease_line_records (hd EmptyString (split_on newline s))
    ++ flat_map lease_line_records (tl (split_on newline s)).
Proof.
  unfold text_records. pose proof (split_on_nonempty newline s).
  by destruct (split_on newline s).
Qed.

Lemma blank_rstrip s : blank s = true -> rstrip s = EmptyString.
Proof.
  unfold blank. induction s as [|c r IH]; simpl; [done|].
  intros [Hc Hr]%andb_prop. rewrite Hc, (IH Hr). done.
Qed.

Lemma rstrip_app_blank w t : blank t = true -> rstrip (w +:+ t) = rstrip w.
Proof.
  intros Ht. induction w as [|c w IH].
  - change (EmptyString +:+ t) with t. by rewrite (blank_rstrip t Ht).
  - change (String c w +:+ t) with (String c (w +:+ t)). simpl. by rewrite IH.
Qed.

Lemma split_ws_app_blank w t : blank t = true -> split_ws (w +:+ t) = split_ws w.
Proof.
  intros Ht. by rewrite <- split_ws_rstrip, (rstrip_app_blank w t Ht), split_ws_rstrip.
Qed.

Lemma lease_line_records_blank t : blank t = true -> lease_line_records t = [].
Proof. intros Ht. unfold lease_line_records. by rewrite split_ws_blank. Qed.

Lemma lease_line_records_app_blank w t :
  blank t = true -> lease_line_records (w +:+ t) = lease_line_records w.
Proof. intros Ht. unfold lease_line_records. by rewrite split_ws_app_blank. Qed.

Lemma lease_line_records_space c w :
  isspace c = true -> lease_line_records (String c w) = lease_line_records w.
Proof. intros Hc. unfold lease_line_records. by rewrite split_ws_cons, Hc. Qed.

Lemma blank_lines t :
  blank t = true -> Forall (fun l => blank l = true) (split_on newline t).
Proof. apply all_chars_split_on. Qed.

Lemma text_records_blank t : blank t = true -> text_records t = [].
Proof.
  intros Ht. unfold text_records. pose proof (blank_lines t Ht) as H.
  induction H as [|l ls Hl _ IH]; simpl; [done|].
  by rewrite (lease_line_records_blank l Hl), IH.
Qed.

Lemma app_blank_lines x t :
  blank t = true ->
  exists t',
    blank t' = true
    /\ hd EmptyString (split_on newline (x +:+ t))
       = hd EmptyString (split_on newline x) +:+ t'
    /\ flat_map lease_line_records (tl (split_on newline (x +:+ t)))
       = flat_map lease_line_records (tl (split_on newline x)).
Proof.
  intros Ht. induction x as [|c x (t' & Ht' & Hhd & Htl)].
  - change (EmptyString +:+ t) with t.
    pose proof (blank_lines t Ht) as H. pose proof (split_on_nonempty newline t).
    destruct (split_on newline t) as [|l ls]; [done|].
    apply Forall_cons in H as [Hl Hls]. exists l. split; [done|]. split; [done|].
    simpl. clear -Hls. induction Hls as [|l' ls' Hl' _ IH]; simpl; [done|].
    by rewrite (lease_line_records_blank l' Hl'), IH.
  - change (String c x +:+ t) with (String c (x +:+ t)).
    destruct (Ascii.eqb c newline) eqn:Hc.
    + exists EmptyString. split; [done|]. simpl. rewrite Hc. simpl. split; [done|].
      fold (text_records (x +:+ t)). fold (text_records x).
      rewrite !text_records_eq, Hhd, Htl.
      by rewrite (lease_line_records_app_blank _ t' Ht').
    + rewrite !split_on_cons_other by done. exists t'. simpl.
      by rewrite Hhd, Htl.
Qed.

Lemma text_records_app_blank x t :
  blank t = true -> text_records (x +:+ t) = text_records x.
Proof.
  intros Ht. destruct (app_blank_lines x t Ht) as (t' & Ht' & Hhd & Htl).
  rewrite !text_records_eq, Hhd, Htl.
  by rewrite (lease_line_records_app_blank _ t' Ht').
Qed.

Lemma text_records_blank_app t y :
  blank t = true -> text_records (t +:+ y) = text_records y.
Proof.
  unfold blank. induction t as [|c t IH]; [done|].
  simpl all_chars. intros [Hc Ht]%andb_prop. specialize (IH Ht).
  change (String c t +:+ y) with (String c (t +:+ y)).
  destruct (Ascii.eqb c newline) eqn:Hnl.
  - unfold text_records at 1. simpl split_on. rewrite Hnl. exact IH.
  - rewrite text_records_eq, split_on_cons_other by done. cbn [hd tl].
    rewrite (lease_line_records_space c _ Hc). rewrite <- text_records_eq. exact IH.
Qed.

Lemma lstrip_split s : exists t, blank t = true /\ s = t +:+ lstrip s.
Proof.
  induction s as [|c r (t & Ht & Hr)]; [by exists EmptyString|]. simpl.
  destruct (isspace c) eqn:Hc.
  - exists (String c t). split; [unfold blank in *; simpl; by rewrite Hc|].
    change (String c t +:+ lstrip r) with (String c (t +:+ lstrip r)). by f_equal.
  - by exists EmptyString.
Qed.

Lemma rstrip_split s : exists t, blank t = true /\ s = rstrip s +:+ t.
Proof.
  induction s as [|c r (t & Ht & Hr)]; [by exists EmptyString|]. simpl.
  destruct (isspace c && negb (nonempty (rstrip r))) eqn:Hcut.
  - apply andb_prop in Hcut as [Hc Hr'%negb_true_iff].
    exists (String c r). split; [|done].
    unfold blank. simpl. rewrite Hc. by apply rstrip_empty_blank.
  - exists t. split; [done|].
    change (String c (rstrip r) +:+ t) with (String c (rstrip r +:+ t)). by f_equal.
Qed.

Lemma text_records_strip s : text_records (strip s) = text_records s.
Proof.
  unfold strip.
  destruct (lstrip_split s) as (t1 & Ht1 & Hs).
  destruct (rstrip_split (lstrip s)) as (t2 & Ht2 & Hl).
  rewrite Hs at 2. rewrite text_records_blank_app by done.
  rewrite Hl at 2. by rewrite text_records_app_blank.
Qed.

Lemma split_on_app_sep sep a b :
  split_on sep (a +:+ String sep b) = split_on sep a ++ split_on sep b.
Proof.
  induction a as [|c a IH]; simpl.
  - by rewrite Ascii.eqb_refl.
  - rewrite IH. destruct (Ascii.eqb c sep); [done|].
    pose proof (split_on_nonempty sep a). by destruct (split_on sep a).
Qed.

(** Lease texts compose: the records of two texts joined by a newline are
    the records of the first followed by those of the second.  The
    trimming of the whole text changes nothing, and a text of whitespace
    only gives no record. *)
Theorem parse_dhcp_leases_app (a b arp : string) :
  _parse_dhcp_leases (a +:+ String newline b) arp
  = _parse_dhcp_leases a arp ++ _parse_dhcp_leases b arp
  /\ _parse_dhcp_leases a arp = flat_map lease_line_records (split_on newline a)
  /\ (blank a = true -> _parse_dhcp_leases a arp = []).
Proof.
  assert (H : forall s, _parse_dhcp_leases s arp = text_records s).
  { intros s. rewrite parse_dhcp_leases_flat_map. apply text_records_strip. }
  split; [|split].
  - rewrite !H. unfold text_records. by rewrite split_on_app_sep, flat_map_app.
  - apply H.
  - intros Ha. rewrite H. by apply text_records_blank.
Qed.

End LeaseParserMore.

Lemma parse_dhcp_leases_well_formed_witness :
  well_formed_device
    (OpenWRTQuery.mkRouterDevice "192.168.1.50" "device-50" "aa:bb:cc:dd:ee:ff"
       (Some "1699999999") None).
Proof.
  apply (parse_dhcp_leases_well_formed
           "1699999999 aa:bb:cc:dd:ee:ff 192.168.1.50 *" "").
  simpl. auto.
Defined.

Lemma parse_dhcp_leases_app_witness :
  OpenWRTQuery._parse_dhcp_leases (String "009"%char (String Py.newline " ")) "" = [].
Proof.
  destruct (parse_dhcp_leases_app (String "009"%char (String Py.newline " ")) "" "")
    as (_ & _ & H).
  apply H. reflexivity.
Defined.

(** ** The resolvers: shape of the results, events, retries *)

Section ResolverMore.
Import Agent.
Variable E : Env.

Local Arguments _refresh_router_cache : simpl never.

Ltac steps :=
  unfold cache_lookup, new_result, emit, time_now, St.bind, St.ret, St.get, St.modify.

Lemma forward_lookup_coherent name s : coherent (forward_lookup E name s).1.
Proof.
  unfold forward_lookup, coherent. steps.
  destruct (gethostbyname E name) as [ip|e]; cbn.
  - left. eauto.
  - destruct (exn_kind e); right; eauto.
Qed.

Lemma reverse_lookup_coherent ip s : coherent (reverse_lookup E ip s).1.
Proof.
  unfold reverse_lookup, coherent. steps.
  destruct (gethostbyaddr E ip) as [name|e]; cbn.
  - left. eauto.
  - destruct (exn_kind e); cbn; try (right; eauto; fail).
    destruct (_is_private_ip E ip); cbn; [|right; eauto].
    destruct (ping_name E ip) as [n|]; cbn; [|right; eauto].
    destruct (Py.nonempty n); cbn; [left|right]; eauto.
Qed.

Lemma from_router_coherent key guard s r :
  (from_router E key guard s).1 = Some r -> coherent r.
Proof.
  rewrite from_router_eq. cbv zeta.
  destruct (_refresh_router_cache E s) as [fresh sr]. cbn.
  destruct fresh; [|done].
  destruct (cached_devices sr !! key) as [v|]; [|done].
  destruct (guard v); [|done].
  intros [= <-]. left. cbn. eauto.
Qed.

(** Whatever either resolver returns is coherent, and its source is one of
    the five the code writes. *)
Theorem resolver_result_coherent (c : resolution_call) (s : agent) :
  let r := (run_call E c s).1 in
  coherent r
  /\ In (source r) ["router_data"; "dns"; "validation"; "reverse_dns"; "ping_resolution"].
Proof.
  destruct c as [h inc|ip inc]; unfold run_call; cbv zeta.
  - rewrite resolve_hostname_to_ip_eq. cbv zeta.
    assert (Hf : forall s', coherent (forward_lookup E (Py.lower (Py.strip h)) s').1
                            /\ In (source (forward_lookup E (Py.lower (Py.strip h)) s').1)
                                 ["router_data"; "dns"; "validation"; "reverse_dns";
                                  "ping_resolution"]).
    { intros s'. split; [apply forward_lookup_coherent|].
      destruct (forward_lookup_spec E (Py.lower (Py.strip h)) s') as [-> _].
      simpl. auto. }
    destruct (inc && use_router_data s); [|apply Hf].
    destruct (from_router E _ _ s).1 as [r|] eqn:Hr; [|apply Hf].
    cbn [fst snd]. split; [by apply from_router_coherent in Hr|].
    apply from_router_some in Hr as (v & _ & _ & _ & _ & -> & _). simpl. auto.
  - rewrite resolve_ip_to_hostname_eq. cbv zeta.
    destruct (_is_valid_ip E (Py.strip ip));
      [|split; [right; cbn; repeat split; eauto|simpl; auto 10]].
    assert (Hf : forall s', coherent (reverse_lookup E (Py.strip ip) s').1
                            /\ In (source (reverse_lookup E (Py.strip ip) s').1)
                                 ["router_data"; "dns"; "validation"; "reverse_dns";
                                  "ping_resolution"]).
    { intros s'. split; [apply reverse_lookup_coherent|].
      destruct (reverse_lookup_spec E (Py.strip ip) s') as [[-> | ->] _]; simpl; auto 10. }
    destruct (inc && use_router_data s); [|apply Hf].
    destruct (from_router E _ _ s).1 as [r|] eqn:Hr; [|apply Hf].
    cbn [fst snd]. split; [by apply from_router_coherent in Hr|].
    apply from_router_some in Hr as (v & _ & _ & _ & _ & -> & _). simpl. auto.
Qed.

Lemma forward_lookup_events name s :
  exists evs,
    trace (forward_lookup E name s).2 = trace s ++ evs
    /\ Forall (fun e => e = EvDns name \/ e = EvAddrInfo name) evs.
Proof.
  unfold forward_lookup. steps.
  destruct (gethostbyname E name) as [ip|e]; cbn.
  - exists [EvDns name; EvAddrInfo name]. rewrite <- app_assoc. split; [done|].
    apply Forall_cons. split; [by left|]. apply Forall_cons. split; [by right|]. constructor.
  - destruct (exn_kind e); cbn; exists [EvDns name]; split; try done;
      repeat constructor; auto.
Qed.

(** The events of the reverse block: the reverse lookup, and a ping for a
    name only when that lookup raised [herror] for a private address. *)
Lemma reverse_lookup_events ip s :
  exists evs,
    trace (reverse_lookup E ip s).2 = trace s ++ evs
    /\ Forall (fun e =>
                 e = EvReverseDns ip
                 \/ (e = EvPingName ip
                     /\ _is_private_ip E ip = true
                     /\ exists ex, gethostbyaddr E ip = Raises ex /\ exn_kind ex = HError))
              evs
    /\ (source (reverse_lookup E ip s).1 = "ping_resolution" -> In (EvPingName ip) evs).
Proof.
  unfold reverse_lookup. steps.
  destruct (gethostbyaddr E ip) as [name|e] eqn:Hrev; cbn.
  - exists [EvReverseDns ip]. split; [done|]. split; [|done]. repeat constructor; auto.
  - destruct (exn_kind e) eqn:Hk; cbn;
      try (exists [EvReverseDns ip]; split; [done|];
           split; [repeat constructor; auto|done]; fail).
    destruct (_is_private_ip E ip) eqn:Hp; cbn;
      [|exists [EvReverseDns ip]; split; [done|]; split; [repeat constructor; auto|done]].
    assert (Hping : Forall (fun e0 =>
                 e0 = EvReverseDns ip
                 \/ (e0 = EvPingName ip
                     /\ true = true
                     /\ exists ex, @Raises string e = Raises ex /\ exn_kind ex = HError))
              [EvReverseDns ip; EvPingName ip]).
    { apply Forall_cons. split; [by left|]. apply Forall_cons. split; [|constructor].
      right. repeat split; eauto. }
    destruct (ping_name E ip) as [n|]; cbn;
      [destruct (Py.nonempty n); cbn|];
      exists [EvReverseDns ip; EvPingName ip]; rewrite <- app_assoc;
      (split; [done|]); (split; [done|]); intros _; simpl; auto.
Qed.

Lemma refresh_events s :
  exists pre,
    trace (_refresh_router_cache E s).2 = trace s ++ pre
    /\ Forall (fun e => router_event e = true) pre.
Proof.
  rewrite refresh_router_cache_eq. cbv zeta.
  destruct (_ && _); [destruct (get_connected_devices E _)|]; cbn.
  - exists [EvBackend]. by repeat constructor.
  - exists [EvBackend]. by repeat constructor.
  - exists []. by rewrite app_nil_r.
Qed.

Lemma from_router_events key guard s :
  exists pre,
    trace (from_router E key guard s).2 = trace s ++ pre
    /\ Forall (fun e => router_event e = true) pre.
Proof.
  rewrite from_router_eq. cbv zeta.
  destruct (refresh_events s) as (pre & Htr & Hpre).
  destruct (_refresh_router_cache E s) as [fresh sr]. cbn in *.
  destruct fresh; [|by exists pre].
  assert (Hlook : Forall (fun e => router_event e = true) (pre ++ [EvCacheLookup key])).
  { apply Forall_app. split; [done|]. by repeat constructor. }
  destruct (cached_devices sr !! key) as [v|]; [destruct (guard v)|]; cbn;
    exists (pre ++ [EvCacheLookup key]); rewrite Htr, <- app_assoc; by split.
Qed.

(** With router data switched off, by the agent or for the call, a
    resolver makes no backend call and no cache lookup and does not answer
    from the router. *)
Lemma run_call_router_off c s :
  use_router_data s = false
  \/ match c with HostnameToIp _ inc | IpToHostname _ inc => inc = false end ->
  let rs := run_call E c s in
  same_directory s rs.2
  /\ source rs.1 <> "router_data"
  /\ exists evs, trace rs.2 = trace s ++ evs /\ Forall (fun e => router_event e = false) evs.
Proof.
  intros Hoff. cbv zeta.
  assert (Hcond : match c with HostnameToIp _ inc | IpToHostname _ inc =>
                    inc && use_router_data s = false end).
  { destruct c as [? inc|? inc]; destruct Hoff as [->| ->]; by rewrite ?andb_false_r. }
  destruct c as [h inc|ip inc]; unfold run_call.
  - rewrite resolve_hostname_to_ip_eq. cbv zeta. rewrite Hcond.
    destruct (forward_lookup_spec E (Py.lower (Py.strip h)) s) as (Hsrc & _ & Hsame).
    destruct (forward_lookup_events (Py.lower (Py.strip h)) s) as (evs & Htr & Hevs).
    split; [done|]. split; [by rewrite Hsrc|]. exists evs. split; [done|].
    eapply Forall_impl; [exact Hevs|]. by intros e [-> | ->].
  - rewrite resolve_ip_to_hostname_eq. cbv zeta.
    destruct (_is_valid_ip E (Py.strip ip)).
    + rewrite Hcond.
      destruct (reverse_lookup_spec E (Py.strip ip) s) as (Hsrc & _ & Hsame).
      destruct (reverse_lookup_events (Py.strip ip) s) as (evs & Htr & Hevs & _).
      split; [done|]. split; [by destruct Hsrc as [-> | ->]|]. exists evs. split; [done|].
      eapply Forall_impl; [exact Hevs|]. by intros e [-> | (-> & _)].
    + split; [apply same_directory_ticked|]. split; [done|].
      exists []. by rewrite app_nil_r.
Qed.

Lemma resolve_query_router_off auto q s :
  use_router_data s = false ->
  let rs := resolve_query E auto q s in
  same_directory s rs.2
  /\ source rs.1 <> "router_data"
  /\ exists evs, trace rs.2 = trace s ++ evs /\ Forall (fun e => router_event e = false) evs.
Proof.
  intros Hoff. unfold resolve_query.
  destruct auto; [destruct (_is_valid_ip E q)|].
  - apply (run_call_router_off (IpToHostname q true) s). by left.
  - apply (run_call_router_off (HostnameToIp q true) s). by left.
  - apply (run_call_router_off (HostnameToIp q true) s). by left.
Qed.

(** An agent built without router data, or whose router manager could not
    be set up, has router data off; and with router data off no batch of
    queries ever calls the backend, looks the cache up or answers from the
    router, whatever the queries are. *)
Theorem router_off_never_queries_router (queries : list string) (auto : bool) (s : agent) :
  (forall want,
      use_router_data (init E want) = want && router_available E && router_manager_new E
      /\ router_manager (init E want) = use_router_data (init E want)
      /\ cached_devices (init E want) = ∅)
  /\ (use_router_data s = false ->
      let rs := bulk_resolve E queries auto s in
      same_directory s rs.2
      /\ Forall (fun r => source r <> "router_data") rs.1
      /\ exists evs,
           trace rs.2 = trace s ++ evs /\ Forall (fun e => router_event e = false) evs).
Proof.
  split.
  - intros want. unfold init. by destruct (want && router_available E && router_manager_new E).
  - intros Hoff. cbv zeta. revert s Hoff.
    induction queries as [|q rest IH]; intros s Hoff.
    + cbn. split; [apply same_directory_refl|]. split; [constructor|].
      exists []. by rewrite app_nil_r.
    + rewrite bulk_resolve_cons. cbv zeta. cbn [fst snd].
      destruct (resolve_query_router_off auto q s Hoff) as (Hsame & Hsrc & evs & Htr & Hevs).
      cbv zeta in Hsame, Hsrc, Htr.
      assert (Hoff' : use_router_data (resolve_query E auto q s).2 = false).
      { destruct Hsame as (_ & _ & _ & -> & _). done. }
      destruct (IH _ Hoff') as (Hsame' & Hsrcs & evs' & Htr' & Hevs').
      split; [by eapply same_directory_trans|]. split; [by constructor|].
      exists (evs ++ evs'). rewrite Htr', Htr, <- app_assoc. split; [done|].
      by apply Forall_app.
Qed.

(** A public address is never pinged for a name: [resolve_ip_to_hostname]
    emits the ping only for a private address whose reverse lookup raised
    [herror], and only then can the source be [ping_resolution]. *)
Theorem ping_name_only_private (ip : string) (inc : bool) (s : agent) :
  let rs := resolve_ip_to_hostname E ip inc s in
  exists evs,
    trace rs.2 = trace s ++ evs
    /\ (forall x, In (EvPingName x) evs ->
                  x = Py.strip ip
                  /\ _is_private_ip E x = true
                  /\ exists ex, gethostbyaddr E x = Raises ex /\ exn_kind ex = HError)
    /\ (source rs.1 = "ping_resolution" -> In (EvPingName (Py.strip ip)) evs).
Proof.
  cbv zeta. rewrite resolve_ip_to_hostname_eq. cbv zeta.
  destruct (_is_valid_ip E (Py.strip ip)).
  2:{ exists []. rewrite app_nil_r. repeat split; try done. }
  assert (Hrev : forall s' pre,
             trace s' = trace s ++ pre ->
             Forall (fun e => router_event e = true) pre ->
             exists evs,
               trace (reverse_lookup E (Py.strip ip) s').2 = trace s ++ evs
               /\ (forall x, In (EvPingName x) evs ->
                             x = Py.strip ip
                             /\ _is_private_ip E x = true
                             /\ exists ex, gethostbyaddr E x = Raises ex /\ exn_kind ex = HError)
               /\ (source (reverse_lookup E (Py.strip ip) s').1 = "ping_resolution" ->
                   In (EvPingName (Py.strip ip)) evs)).
  { intros s' pre Hpre Hrouter.
    destruct (reverse_lookup_events (Py.strip ip) s') as (evs & Htr & Hevs & Hsrc).
    exists (pre ++ evs). rewrite Htr, Hpre, <- app_assoc. split; [done|]. split.
    - intros x [Hx|Hx]%in_app_or.
      + rewrite List.Forall_forall in Hrouter. by apply Hrouter in Hx.
      + rewrite List.Forall_forall in Hevs.
        destruct (Hevs _ Hx) as [Heq|(Heq & Hp & Hex)]; [done|].
        injection Heq as ->. done.
    - intros H. apply in_or_app. right. by apply Hsrc. }
  destruct (inc && use_router_data s).
  - destruct (from_router_events (Py.strip ip) (fun v => negb (_is_valid_ip E v)) s)
      as (pre & Htr & Hpre).
    destruct (from_router E _ _ s).1 as [r|] eqn:Hr.
    + exists pre. cbn. split; [done|]. split.
      * intros x Hx. rewrite List.Forall_forall in Hpre. by apply Hpre in Hx.
      * apply from_router_some in Hr as (v & _ & _ & _ & _ & -> & _). done.
    + by apply (Hrev _ pre).
  - apply (Hrev s []); [by rewrite app_nil_r|constructor].
Qed.

End ResolverMore.

Lemma resolver_result_coherent_witness :
  coherent (Agent.resolve_hostname_to_ip Sample.router_up "nowhere.invalid" true Sample.warm).1.
Proof.
  apply (resolver_result_coherent Sample.router_up
           (HostnameToIp "nowhere.invalid" true) Sample.warm).
Defined.

Lemma router_off_never_queries_router_witness :
  Agent.backend_calls
    (Agent.bulk_resolve Sample.router_up ["nano"; "8.8.8.8"] true
       (Agent.init Sample.router_up false)).2 = 0%nat.
Proof.
  destruct (router_off_never_queries_router Sample.router_up ["nano"; "8.8.8.8"] true
              (Agent.init Sample.router_up false)) as (_ & H).
  destruct (H eq_refl) as ((_ & _ & Hb & _) & _). exact Hb.
Defined.

Lemma ping_name_only_private_witness :
  Agent._is_private_ip Sample.router_up "192.168.1.7" = true.
Proof.
  destruct (ping_name_only_private Sample.router_up "192.168.1.7" false Sample.warm)
    as (evs & Htr & Hping & _).
  vm_compute in Htr. subst evs.
  apply (Hping "192.168.1.7"). simpl. auto.
Defined.

(** ** The device directory: what a refresh stores and gives back *)

Section DirectoryMore.
Import Agent.
Variable E : Env.

Local Arguments _refresh_router_cache : simpl never.

Section Index.
Context {A : Type} (kf vf : A -> string).

Lemma index_lookup_other l : forall (m : gmap string string) k,
  (forall d, In d l -> kf d <> k) ->
  foldl (fun m d => <[kf d := vf d]> m) m l !! k = m !! k.
Proof.
  induction l as [|x l IH]; intros m k Hk; simpl; [done|].
  rewrite IH by (intros d Hd; apply Hk; by right).
  apply lookup_insert_ne, Hk. by left.
Qed.

Lemma index_lookup_nodup l : forall (m : gmap string string) d,
  In d l -> NoDup (map kf l) ->
  foldl (fun m d => <[kf d := vf d]> m) m l !! kf d = Some (vf d).
Proof.
  induction l as [|x l IH]; intros m d Hd Hnd; simpl; [done|].
  simpl in Hnd. apply NoDup_cons in Hnd as [Hx Hnd].
  destruct Hd as [->|Hd]; [|by apply IH].
  rewrite index_lookup_other.
  - apply lookup_insert_eq.
  - intros d' Hd' Heq. apply Hx. rewrite <- Heq. apply list_elem_of_In.
    by apply in_map.
Qed.

Lemma index_lookup_some l : forall (m : gmap string string) k v,
  foldl (fun m d => <[kf d := vf d]> m) m l !! k = Some v ->
  m !! k = Some v \/ exists d, In d l /\ k = kf d /\ v = vf d.
Proof.
  induction l as [|x l IH]; intros m k v Hv; simpl in *; [by left|].
  destruct (IH _ _ _ Hv) as [Hm|(d & Hd & -> & ->)].
  - rewrite lookup_insert in Hm. case_decide as Heq.
    + right. exists x. injection Hm as <-. split; [by left|done].
    + by left.
  - right. exists d. split; [by right|done].
Qed.

Lemma index_lookup_in l : forall (m : gmap string string) d,
  In d l -> is_Some (foldl (fun m d => <[kf d := vf d]> m) m l !! kf d).
Proof.
  induction l as [|x l IH]; intros m d Hd; simpl; [done|].
  destruct Hd as [->|Hd]; [|by apply IH].
  destruct (decide (Exists (fun d' => kf d' = kf d) l)) as [Hex|Hno].
  - apply Exists_exists in Hex as (d' & Hd' & Heq). rewrite <- Heq.
    apply IH. by apply list_elem_of_In.
  - rewrite index_lookup_other.
    + rewrite lookup_insert_eq. eauto.
    + intros d' Hd' Heq. apply Hno, Exists_exists. exists d'.
      split; [by apply list_elem_of_In|done].
Qed.

End Index.

(** Every entry of the directory built from a batch of records comes from
    one of them, as address to name or as lowercase name to address; every
    record has both its keys in it; and an empty batch gives an empty
    directory. *)
Theorem directory_entries_from_devices (devices : list OpenWRTQuery.RouterDevice) :
  (forall k v,
      directory_of devices !! k = Some v ->
      exists d,
        In d devices
        /\ ((k = OpenWRTQuery.ip_address d /\ v = OpenWRTQuery.hostname d)
            \/ (k = Py.lower (OpenWRTQuery.hostname d) /\ v = OpenWRTQuery.ip_address d)))
  /\ (forall d,
         In d devices ->
         is_Some (directory_of devices !! OpenWRTQuery.ip_address d)
         /\ is_Some (directory_of devices !! Py.lower (OpenWRTQuery.hostname d)))
  /\ (devices = [] -> directory_of devices = ∅).
Proof.
  unfold directory_of, ip_index, hostname_index. split; [|split].
  - intros k v [Hip|[_ Hhost]]%lookup_union_Some_raw.
    + apply index_lookup_some in Hip as [Hempty|(d & Hd & -> & ->)]; [done|].
      exists d. auto.
    + apply index_lookup_some in Hhost as [Hempty|(d & Hd & -> & ->)]; [done|].
      exists d. auto.
  - intros d Hd. split.
    + destruct (index_lookup_in OpenWRTQuery.ip_address OpenWRTQuery.hostname devices ∅ d Hd)
        as [v Hv].
      exists v. apply lookup_union_Some_raw. by left.
    + destruct (index_lookup_in (fun d => Py.lower (OpenWRTQuery.hostname d))
                  OpenWRTQuery.ip_address devices ∅ d Hd) as [v Hv].
      apply lookup_union_is_Some. right. eauto.
  - intros ->. simpl. apply map_eq. intros k. by rewrite lookup_union, !lookup_empty.
Qed.

Lemma refresh_success s devices :
  next_reading E s - cache_timestamp s > cache_ttl ->
  router_manager s = true ->
  get_connected_devices E (backend_calls s) = Returns devices ->
  cached_devices (_refresh_router_cache E s).2 = directory_of devices.
Proof.
  intros Hstale Hrm Hb. rewrite refresh_router_cache_eq. cbv zeta.
  destruct (Z.gtb_spec (next_reading E s - cache_timestamp s) cache_ttl); [|lia].
  by rewrite Hrm, Hb.
Qed.

(** What a refresh stores, the resolvers give back.  After a stale cache is
    refreshed from records with pairwise different addresses, asking for
    the name of a record's address answers with that record's name from
    [router_data]; and when the lowercase names are pairwise different too
    and none of them is some record's address, asking for the address of a
    record's name answers with that record's address. *)
Theorem refreshed_directory_round_trip (devices : list OpenWRTQuery.RouterDevice)
    (d : OpenWRTQuery.RouterDevice) (s : agent) :
  use_router_data s = true -> router_manager s = true ->
  next_reading E s - cache_timestamp s > cache_ttl ->
  get_connected_devices E (backend_calls s) = Returns devices ->
  In d devices ->
  NoDup (map OpenWRTQuery.ip_address devices) ->
  _is_valid_ip E (OpenWRTQuery.ip_address d) = true ->
  (Py.strip (OpenWRTQuery.ip_address d) = OpenWRTQuery.ip_address d ->
   _is_valid_ip E (OpenWRTQuery.hostname d) = false ->
   let r := (resolve_ip_to_hostname E (OpenWRTQuery.ip_address d) true s).1 in
   success r = true /\ result r = Some (OpenWRTQuery.hostname d)
   /\ source r = "router_data")
  /\ (Py.strip (OpenWRTQuery.hostname d) = OpenWRTQuery.hostname d ->
      NoDup (map (fun d => Py.lower (OpenWRTQuery.hostname d)) devices) ->
      (forall d', In d' devices ->
                  OpenWRTQuery.ip_address d' <> Py.lower (OpenWRTQuery.hostname d)) ->
      let r := (resolve_hostname_to_ip E (OpenWRTQuery.hostname d) true s).1 in
      success r = true /\ result r = Some (OpenWRTQuery.ip_address d)
      /\ source r = "router_data").
Proof.
  intros Huse Hrm Hstale Hb Hd Hnd Hvalid.
  pose proof (refresh_success s devices Hstale Hrm Hb) as Hcache.
  split.
  - intros Hstrip Hname. cbv zeta.
    rewrite resolve_ip_to_hostname_eq. cbv zeta. rewrite Hstrip, Hvalid, Huse. cbn [andb].
    destruct (from_router_hit E (OpenWRTQuery.ip_address d)
                (fun v => negb (_is_valid_ip E v)) s (OpenWRTQuery.hostname d))
      as (r & Hr & ? & ? & ? & ?).
    + rewrite Hcache. unfold directory_of, ip_index.
      apply lookup_union_Some_raw. left.
      by apply (index_lookup_nodup OpenWRTQuery.ip_address OpenWRTQuery.hostname).
    + by rewrite Hname.
    + by rewrite Hr.
  - intros Hstrip Hnames Hfresh. cbv zeta.
    rewrite resolve_hostname_to_ip_eq. cbv zeta. rewrite Hstrip, Huse. cbn [andb].
    destruct (from_router_hit E (Py.lower (OpenWRTQuery.hostname d))
                (_is_valid_ip E) s (OpenWRTQuery.ip_address d))
      as (r & Hr & ? & ? & ? & ?).
    + rewrite Hcache. unfold directory_of, ip_index, hostname_index.
      apply lookup_union_Some_raw. right. split.
      * rewrite index_lookup_other; [done|]. intros d' Hd'. by apply Hfresh.
      * by apply (index_lookup_nodup (fun d => Py.lower (OpenWRTQuery.hostname d))
                    OpenWRTQuery.ip_address).
    + done.
    + by rewrite Hr.
Qed.

Lemma refresh_failure s e :
  next_reading E s - cache_timestamp s > cache_ttl ->
  router_manager s = true ->
  get_connected_devices E (backend_calls s) = Raises e ->
  let s' := (_refresh_router_cache E s).2 in
  same_directory (mkAgent (use_router_data s) (router_manager s) (cached_devices s)
                    (cache_timestamp s) (clock_reads s) (S (backend_calls s)) (trace s)) s'.
Proof.
  intros Hstale Hrm Hb. cbv zeta. rewrite refresh_router_cache_eq. cbv zeta.
  destruct (Z.gtb_spec (next_reading E s - cache_timestamp s) cache_ttl); [|lia].
  rewrite Hrm, Hb. by repeat split.
Qed.

Lemma consulting_call_directory c s :
  use_router_data s = true ->
  consults_router E c = true ->
  same_directory (_refresh_router_cache E s).2 (run_call E c s).2.
Proof.
  intros Huse Hc. destruct c as [h inc|ip inc]; simpl in Hc; unfold run_call.
  - subst inc. rewrite resolve_hostname_to_ip_eq. cbv zeta. rewrite Huse. cbn [andb].
    pose proof (from_router_same_directory E (Py.lower (Py.strip h)) (_is_valid_ip E) s) as Hfr.
    destruct (from_router E _ _ s) as [[r|] s']; cbn in *; [done|].
    eapply same_directory_trans; [exact Hfr|]. apply forward_lookup_spec.
  - apply andb_prop in Hc as [-> Hip].
    rewrite resolve_ip_to_hostname_eq. cbv zeta. rewrite Hip, Huse. cbn [andb].
    pose proof (from_router_same_directory E (Py.strip ip)
                  (fun v => negb (_is_valid_ip E v)) s) as Hfr.
    destruct (from_router E _ _ s) as [[r|] s']; cbn in *; [done|].
    eapply same_directory_trans; [exact Hfr|]. apply reverse_lookup_spec.
Qed.

(** A failed refresh is not remembered: the timestamp stays where it was,
    so the next call that consults the router finds the cache stale again
    and calls the backend again.  Two such calls against a backend that
    raises both times make two backend calls and leave the directory and
    its timestamp as they were. *)
Theorem failed_refresh_is_retried (c1 c2 : resolution_call) (s : agent) :
  let s1 := (run_call E c1 s).2 in
  let s2 := (run_call E c2 s1).2 in
  use_router_data s = true -> router_manager s = true ->
  consults_router E c1 = true -> consults_router E c2 = true ->
  next_reading E s - cache_timestamp s > cache_ttl ->
  next_reading E s1 - cache_timestamp s > cache_ttl ->
  (exists e, get_connected_devices E (backend_calls s) = Raises e) ->
  (exists e, get_connected_devices E (S (backend_calls s)) = Raises e) ->
  backend_calls s1 = S (backend_calls s)
  /\ backend_calls s2 = S (S (backend_calls s))
  /\ cached_devices s2 = cached_devices s
  /\ cache_timestamp s2 = cache_timestamp s.
Proof.
  intros s1 s2 Huse Hrm Hc1 Hc2 Hst1 Hst2 [e1 He1] [e2 He2].
  pose proof (consulting_call_directory c1 s Huse Hc1) as H1.
  pose proof (refresh_failure s e1 Hst1 Hrm He1) as Hf1. cbv zeta in Hf1.
  pose proof (same_directory_trans _ _ _ Hf1 H1) as (Hcache1 & Hts1 & Hcalls1 & Huse1 & Hrm1).
  fold s1 in Hcache1, Hts1, Hcalls1, Huse1, Hrm1. cbn in *.
  assert (Huse1' : use_router_data s1 = true) by congruence.
  assert (Hrm1' : router_manager s1 = true) by congruence.
  pose proof (consulting_call_directory c2 s1 Huse1' Hc2) as H2.
  assert (Hst2' : next_reading E s1 - cache_timestamp s1 > cache_ttl) by (rewrite Hts1; lia).
  assert (He2' : get_connected_devices E (backend_calls s1) = Raises e2) by (by rewrite Hcalls1).
  pose proof (refresh_failure s1 e2 Hst2' Hrm1' He2') as Hf2. cbv zeta in Hf2.
  pose proof (same_directory_trans _ _ _ Hf2 H2) as (Hcache2 & Hts2 & Hcalls2 & _).
  fold s2 in Hcache2, Hts2, Hcalls2. cbn in *.
  repeat split; congruence.
Qed.

End DirectoryMore.

Lemma directory_entries_from_devices_witness :
  exists d, In d [Sample.nano]
            /\ (("nano" = OpenWRTQuery.ip_address d /\ "192.168.1.159" = OpenWRTQuery.hostname d)
                \/ ("nano" = Py.lower (OpenWRTQuery.hostname d)
                    /\ "192.168.1.159" = OpenWRTQuery.ip_address d)).
Proof.
  destruct (directory_entries_from_devices [Sample.nano]) as (H & _).
  apply (H "nano" "192.168.1.159"). reflexivity.
Defined.

Lemma refreshed_directory_round_trip_witness :
  Agent.result (Agent.resolve_ip_to_hostname Sample.router_up "192.168.1.159" true
                  Sample.stale).1 = Some "nano"
  /\ Agent.result (Agent.resolve_hostname_to_ip Sample.router_up "nano" true
                     Sample.stale).1 = Some "192.168.1.159".
Proof.
  assert (Hips : NoDup (map OpenWRTQuery.ip_address [Sample.nano]))
    by apply NoDup_singleton.
  assert (Hnames : NoDup (map (fun d => Py.lower (OpenWRTQuery.hostname d)) [Sample.nano]))
    by apply NoDup_singleton.
  destruct (refreshed_directory_round_trip Sample.router_up [Sample.nano] Sample.nano
              Sample.stale eq_refl eq_refl eq_refl eq_refl (or_introl eq_refl) Hips eq_refl)
    as [Hip Hname].
  split.
  - apply Hip; reflexivity.
  - apply Hname; [reflexivity|exact Hnames|].
    intros d' [<-|[]]. discriminate.
Defined.

Lemma failed_refresh_is_retried_witness :
  Agent.backend_calls
    (run_call Sample.router_down (IpToHostname "8.8.8.8" true)
       (run_call Sample.router_down (HostnameToIp "nano" true) Sample.stale).2).2 = 2%nat.
Proof.
  destruct (failed_refresh_is_retried Sample.router_down
              (HostnameToIp "nano" true) (IpToHostname "8.8.8.8" true) Sample.stale
              eq_refl eq_refl eq_refl eq_refl eq_refl eq_refl
              (ex_intro _ _ eq_refl) (ex_intro _ _ eq_refl))
    as (_ & H & _).
  exact H.
Defined.

(** ** Network information and the function-call interface *)

Section InfoMore.
Import Agent.
Variable E : Env.

Local Arguments _refresh_router_cache : simpl never.
Local Arguments resolve_ip_to_hostname : simpl never.
Local Arguments resolve_hostname_to_ip : simpl never.
Local Arguments found_in_router : simpl never.

Ltac steps :=
  unfold cache_lookup, new_result, emit, time_now, St.bind, St.ret, St.get, St.modify.


(** A name that does not resolve is not pinged: [get_network_info] then
    only stamps its answer, which is still a success, with no address, not
    private, not local and not reachable.  A name that resolves to a
    non-empty address is pinged at that address right after the
    resolution. *)
Theorem network_info_pings_resolved_only (target : string) (s : agent) :
  _is_valid_ip E target = false ->
  let hr := resolve_hostname_to_ip E target true s in
  let rs := get_network_info E (PStr target) s in
  (success hr.1 = false ->
   rs.2 = ticked 1 hr.2
   /\ success rs.1 = true
   /\ additional_info rs.1
      = Some [ ("input_type", PStr "hostname"); ("is_private", PBool false);
               ("is_local", PBool false); ("ping_successful", PBool false);
               ("hostname", PStr target); ("ip_address", PNone) ])
  /\ (forall ip,
         success hr.1 = true -> result hr.1 = Some ip -> Py.nonempty ip = true ->
         exists evs, trace rs.2 = trace hr.2 ++ EvPing ip :: evs).
Proof.
  intros Hip. cbv zeta. unfold get_network_info, network_info, _ping_host. steps.
  rewrite Hip. destruct (resolve_hostname_to_ip E target true s) as [hr s1]. cbn [fst snd].
  split.
  - intros ->. cbn. rewrite andb_false_r. done.
  - intros ip -> -> Hne. cbn. rewrite ?Hne. cbn.
    destruct (ping_run E ip) as [code|ex]; cbn; rewrite ?Hne; cbn;
      [|destruct (exn_kind ex); cbn; rewrite ?Hne; cbn; try (by exists [])];
      (destruct (use_router_data s1 && _is_private_ip E ip); cbn; [|by exists []]);
      match goal with
      | |- context [_refresh_router_cache E ?x] =>
          destruct (refresh_events E x) as (pre & Htr & _);
          destruct (_refresh_router_cache E x) as [fresh s2]
      end;
      cbn in *; exists pre; by rewrite Htr, <- app_assoc.
Qed.

Lemma signature_cases name :
  (name = "resolve_hostname_to_ip" \/ name = "resolve_ip_to_hostname"
   \/ name = "bulk_resolve" \/ name = "get_network_info")
  \/ (signature name = None
      /\ String.eqb name "resolve_hostname_to_ip" = false
      /\ String.eqb name "resolve_ip_to_hostname" = false
      /\ String.eqb name "bulk_resolve" = false
      /\ String.eqb name "get_network_info" = false).
Proof.
  unfold signature.
  destruct (String.eqb_spec name "resolve_hostname_to_ip"); [auto|].
  destruct (String.eqb_spec name "resolve_ip_to_hostname"); [auto|].
  destruct (String.eqb_spec name "bulk_resolve"); [auto|].
  destruct (String.eqb_spec name "get_network_info"); [auto|].
  right. done.
Qed.


End InfoMore.


Lemma network_info_pings_resolved_only_witness :
  (Agent.get_network_info Sample.router_up (PStr "nowhere.invalid") Sample.warm).2
  = ticked 1
      (Agent.resolve_hostname_to_ip Sample.router_up "nowhere.invalid" true Sample.warm).2.
Proof.
  destruct (network_info_pings_resolved_only Sample.router_up "nowhere.invalid"
              Sample.warm eq_refl) as (H & _).
  destruct (H eq_refl) as (Hs & _). exact Hs.
Defined.


(** ** The web backend: what the parsers return *)

Section WebParseMore.
Import OpenWRTWeb.
Variable E : Env.

Lemma extract_device_info_required data : has_required_fields (_extract_device_info E data).
Proof.
  unfold has_required_fields, _extract_device_info. cbv zeta.
  rewrite !dict_get_setdefault. cbn [String.eqb Ascii.eqb Bool.eqb].
  repeat split;
    repeat match goal with
      | |- context [dict_get ?k ?d] => destruct (dict_get k d)
      end; eauto.
Qed.

Lemma foldl_Forall {A B} (P : A -> Prop) (f : list A -> B -> list A) l :
  (forall acc x, Forall P acc -> Forall P (f acc x)) ->
  forall acc, Forall P acc -> Forall P (foldl f acc l).
Proof.
  intros Hf. induction l as [|x l IH]; intros acc Hacc; simpl; [done|].
  apply IH, Hf, Hacc.
Qed.

Lemma extend_with_objects items : forall devices,
  foldl (fun devices item =>
           match item with
           | PDict i => devices ++ [_extract_device_info E i]
           | _ => devices
           end) devices items
  = devices ++ map (_extract_device_info E) (object_items false items).
Proof.
  unfold object_items.
  induction items as [|item items IH]; intros devices; simpl; [by rewrite app_nil_r|].
  rewrite IH. destruct item; simpl; try done. by rewrite <- app_assoc.
Qed.

Lemma extend_with_ip_objects items : forall devices,
  foldl (fun devices item =>
           match item with
           | PDict d =>
               if is_some (dict_get "ip" d)
               then devices ++ [_extract_device_info E d]
               else devices
           | _ => devices
           end) devices items
  = devices ++ map (_extract_device_info E) (object_items true items).
Proof.
  unfold object_items.
  induction items as [|item items IH]; intros devices; simpl; [by rewrite app_nil_r|].
  rewrite IH. destruct item as [| | | | | |d]; simpl; try done.
  destruct (is_some (dict_get "ip" d)); simpl; [|done]. by rewrite <- app_assoc.
Qed.

(** The two JSON strategies differ.  A top-level array yields one device
    per object that has the key ["ip"], and drops every other object even
    if it names its address [ipaddr] or [address].  An object yields the
    devices of the arrays found under [clients], [devices],
    [dhcp_clients], [leases], taken in that order, one per object whatever
    its keys.  Any other JSON value yields nothing. *)
Theorem parse_json_response_strategies (data : pyval) :
  (forall items,
      data = PList items ->
      _parse_json_response E data
      = map (_extract_device_info E) (object_items true items))
  /\ (forall d,
         data = PDict d ->
         _parse_json_response E data
         = flat_map (fun key =>
                       match dict_get key d with
                       | Some (PList items) =>
                           map (_extract_device_info E) (object_items false items)
                       | _ => []
                       end) device_array_keys)
  /\ ((forall items, data <> PList items) -> (forall d, data <> PDict d) ->
      _parse_json_response E data = []).
Proof.
  split; [|split].
  - intros items ->. unfold _parse_json_response. by rewrite extend_with_ip_objects.
  - intros d ->. unfold _parse_json_response, device_array_keys. cbn [foldl flat_map].
    repeat match goal with
      | |- context [dict_get ?k d] =>
          destruct (dict_get k d) as [[| | | | |?items|]|];
          rewrite ?extend_with_objects
      end; by rewrite ?app_nil_r, <- ?app_assoc.
  - intros Hl Hd. destruct data; try done; [by destruct (Hl items)|by destruct (Hd entries)].
Qed.

Lemma html_match_required devices groups :
  Forall has_required_fields devices -> Forall has_required_fields (html_match E devices groups).
Proof.
  intros Hd. unfold html_match. cbv zeta.
  destruct (Py.startswith_char _ _).
  - destruct (json_loads E _) as [[| | | | |items|]|]; try done.
    rewrite extend_with_objects. apply Forall_app. split; [done|].
    apply Forall_forall. intros d (i & -> & _)%list_elem_of_fmap.
    apply extract_device_info_required.
  - apply Forall_app. split; [done|]. constructor; [|constructor].
    unfold has_required_fields. cbn. eauto.
Qed.

Lemma parse_response_required content :
  Forall has_required_fields (_parse_response E content).
Proof.
  unfold _parse_response.
  destruct (_ || _).
  - destruct (json_loads E content) as [data|]; [|constructor].
    destruct (parse_json_response_strategies data) as (Hlist & Hdict & Hother).
    destruct data; try (rewrite Hother; [constructor|done|done]).
    + rewrite (Hlist _ eq_refl). apply Forall_forall.
      intros d (i & -> & _)%list_elem_of_fmap. apply extract_device_info_required.
    + rewrite (Hdict _ eq_refl). apply Forall_forall.
      intros d Hin. apply list_elem_of_In, in_flat_map in Hin as (key & _ & Hin).
      destruct (dict_get key entries) as [[| | | | |items|]|]; try done.
      apply in_map_iff in Hin as (i & <- & _). apply extract_device_info_required.
  - unfold _parse_html_response.
    apply foldl_Forall; [|constructor]. intros acc pattern Hacc.
    apply foldl_Forall; [|done]. intros acc' groups. apply html_match_required.
Qed.

(** Every device the web backend returns, by whichever strategy it was
    scraped, has an [ip_address], a [hostname] and a [mac_address]. *)
Theorem web_devices_have_required_fields (probed : list string) :
  (forall content, Forall has_required_fields (_parse_response E content))
  /\ (forall devices,
         (get_dhcp_clients E probed).1 = Returns devices ->
         Forall has_required_fields devices).
Proof.
  split; [exact parse_response_required|].
  intros devices. unfold get_dhcp_clients.
  destruct (authenticate E) as [[|]|e]; [|done|done].
  unfold St.bind, St.ret.
  destruct (probe_loop_first E endpoints probed)
    as [(b & e & a & _ & _ & _ & ->)|[_ ->]]; cbn.
  - intros [= <-]. unfold endpoint_devices.
    destruct (session_get E e) as [[status text]|]; [|constructor].
    destruct (status =? 200); [apply parse_response_required|constructor].
  - intros [= <-]. constructor.
Qed.

End WebParseMore.

Lemma parse_json_response_strategies_witness :
  OpenWRTWeb._parse_json_response Sample.router_pages
    (PList [PDict [("ipaddr", PStr "192.168.1.50")]]) = []
  /\ length (OpenWRTWeb._parse_json_response Sample.router_pages
               (PDict [("clients", PList [PDict [("ipaddr", PStr "192.168.1.50")]])]))
     = 1%nat.
Proof.
  split.
  - destruct (parse_json_response_strategies Sample.router_pages
                (PList [PDict [("ipaddr", PStr "192.168.1.50")]])) as (H & _).
    rewrite (H _ eq_refl). reflexivity.
  - destruct (parse_json_response_strategies Sample.router_pages
                (PDict [("clients", PList [PDict [("ipaddr", PStr "192.168.1.50")]])]))
      as (_ & H & _).
    rewrite (H _ eq_refl). reflexivity.
Defined.

Lemma web_devices_have_required_fields_witness :
  Forall has_required_fields
    [[("ip_address", "192.168.1.50"); ("hostname", "printer"); ("mac_address", "Unknown")]].
Proof.
  destruct (web_devices_have_required_fields Sample.router_pages []) as (_ & H).
  apply H. reflexivity.
Defined.

(** ** The login handshake *)

Section LoginMore.
Import WebAuth.
Variable E : Env.

Lemma request_guard_idem r : request_guard (request_guard r) = request_guard r.
Proof. destruct r as [b|e]; [done|]. simpl. by destruct (exn_kind e) eqn:Hk; simpl; rewrite ?Hk. Qed.

Lemma request_guard_never_request r e :
  request_guard r = Raises e -> exn_kind e <> RequestException.
Proof.
  destruct r as [b|e']; [done|]. simpl.
  destruct (exn_kind e') eqn:Hk; intros [= <-]; by rewrite Hk.
Qed.

Lemma alternative_logins_eq endpoints : forall s,
  alternative_logins E endpoints s =
  ((login_pass E endpoints).2,
   mkSession (match (login_pass E endpoints).2 with
              | Returns true => true
              | _ => authenticated s
              end)
             (posted s ++ (login_pass E endpoints).1)).
Proof.
  induction endpoints as [|ep rest IH]; intros s; simpl.
  - unfold St.ret. rewrite app_nil_r. by destruct s.
  - unfold St.bind, post, set_authenticated, St.modify, St.ret.
    destruct (post_login E ep) as [response|e]; cbn; [|done].
    destruct (logged_in response); cbn; [done|].
    rewrite IH. cbn. by rewrite <- app_assoc.
Qed.

Lemma perform_login_eq s :
  _perform_login E s =
  (request_guard (login_pass E login_endpoints).2,
   mkSession (match (login_pass E login_endpoints).2 with
              | Returns true => true
              | _ => authenticated s
              end)
             (posted s ++ (login_pass E login_endpoints).1)).
Proof.
  change (_perform_login E s)
    with (St.bind (alternative_logins E login_endpoints)
                  (fun r => St.ret (request_guard r)) s).
  unfold St.bind, St.ret. by rewrite alternative_logins_eq.
Qed.

Lemma login_pass_prefix endpoints :
  exists rest, endpoints = (login_pass E endpoints).1 ++ rest.
Proof.
  induction endpoints as [|ep eps [rest IH]]; simpl; [by exists []|].
  destruct (post_login E ep) as [response|e]; [|by exists eps].
  destruct (logged_in response); [by exists eps|].
  exists rest. simpl. by rewrite <- IH.
Qed.

Lemma login_pass_true endpoints :
  (login_pass E endpoints).2 = Returns true ->
  exists ep response,
    List.last (login_pass E endpoints).1 ep = ep
    /\ In ep (login_pass E endpoints).1
    /\ post_login E ep = Returns response
    /\ logged_in response = true.
Proof.
  induction endpoints as [|ep eps IH]; simpl; [done|].
  destruct (post_login E ep) as [response|e] eqn:Hpost; [|done].
  destruct (logged_in response) eqn:Hin.
  - intros _. exists ep, response. simpl. auto.
  - intros H. destruct (IH H) as (ep' & r' & Hlast & Hin' & Hp & Hl).
    exists ep', r'. simpl. repeat split; try done; [|by right].
    destruct (login_pass E eps).1; [done|exact Hlast].
Qed.

Lemma login_pass_false endpoints :
  (login_pass E endpoints).2 = Returns false ->
  (login_pass E endpoints).1 = endpoints
  /\ Forall (fun ep => exists response,
                         post_login E ep = Returns response
                         /\ logged_in response = false) endpoints.
Proof.
  induction endpoints as [|ep eps IH]; simpl; [by split|].
  destruct (post_login E ep) as [response|e] eqn:Hpost; [|done].
  destruct (logged_in response) eqn:Hin; [done|].
  intros H. destruct (IH H) as [-> Hall]. split; [done|]. constructor; eauto.
Qed.

(** When nothing is posted, the account of the posts holds vacuously. *)
Lemma quiet_handshake (s s' : session) (r : outcome bool) :
  posted s' = posted s ->
  exists tried rest,
    posted s' = posted s ++ tried /\ login_endpoints = tried ++ rest
    /\ (tried <> [] ->
        exists response, get_main E = Returns response
                         /\ asks_login response = true)
    /\ (r = Returns true -> tried <> [] ->
        exists ep response,
          List.last tried ep = ep
          /\ post_login E ep = Returns response /\ logged_in response = true)
    /\ (r = Returns false -> tried <> [] ->
        tried = login_endpoints
        \/ exists ep e, In ep tried /\ post_login E ep = Raises e
                        /\ exn_kind e = RequestException).
Proof.
  intros Hs'. exists [], login_endpoints. rewrite app_nil_r.
  split; [done|]. split; [done|].
  split; [by intros H|]. split; by intros _ H.
Qed.


End LoginMore.


(** ** Configuration and the query manager *)

Section ManagerMore.
Import RouterManager.
Variable E : Env.

Local Arguments query_dhcp_leases : simpl never.
Local Arguments query_dhcp_clients : simpl never.

Lemma merge_loop_filter (ips : list string) (web acc : list OpenWRTQuery.RouterDevice) :
  foldl (fun devices device =>
           if bool_decide (OpenWRTQuery.ip_address device ∈ (list_to_set ips : gset string))
           then devices
           else devices ++ [device])
        acc web
  = acc ++ filter (fun d => OpenWRTQuery.ip_address d ∉ ips) web.
Proof.
  revert acc. induction web as [|d web IH]; intros acc; simpl.
  - by rewrite app_nil_r.
  - rewrite IH. case_bool_decide as Hin; rewrite elem_of_list_to_set in Hin.
    + rewrite filter_cons_False; [done|]. by intros Hn.
    + rewrite filter_cons_True; [|done]. by rewrite <- app_assoc.
Qed.

Lemma key_in_dict_set k key value d :
  key_in E k (PDict d) = Returns true ->
  key_in E k (PDict (dict_set key value d)) = Returns true.
Proof.
  simpl. rewrite dict_get_set. intros [= H].
  destruct (String.eqb key k); [done|]. by rewrite H.
Qed.

Lemma merge_defaults_keeps k defaults : forall config c,
  key_in E k config = Returns true ->
  merge_defaults E defaults config = Returns c ->
  key_in E k c = Returns true.
Proof.
  induction defaults as [|[key value] rest IH]; intros config c Hk; simpl.
  - by intros [= <-].
  - destruct (key_in E key config) as [[|]|e]; simpl; [by apply IH|  |done].
    destruct config as [ | | | | |items|d]; simpl; try done.
    apply IH. by apply key_in_dict_set.
Qed.

Lemma merge_defaults_returns defaults : forall config c,
  merge_defaults E defaults config = Returns c ->
  Forall (fun kv => key_in E kv.1 c = Returns true) defaults.
Proof.
  induction defaults as [|[key value] rest IH]; intros config c; simpl; [by constructor|].
  destruct (key_in E key config) as [[|]|e] eqn:Hkey; simpl; [ | |done].
  - intros Hm. constructor; [|by eapply IH].
    simpl. by eapply merge_defaults_keeps.
  - destruct config as [ | | | | |items|d]; simpl; try done.
    intros Hm. constructor; [|by eapply IH].
    simpl. eapply merge_defaults_keeps; [|exact Hm].
    simpl. by rewrite dict_get_set, String.eqb_refl.
Qed.

Lemma merge_defaults_dict defaults : forall d,
  exists c, merge_defaults E defaults (PDict d) = Returns (PDict c)
            /\ forall k, dict_get k c =
                         match dict_get k d with
                         | Some v => Some v
                         | None => dict_get k defaults
                         end.
Proof.
  induction defaults as [|[key value] rest IH]; intros d; simpl.
  - exists d. split; [done|]. intros k. by destruct (dict_get k d).
  - destruct (dict_get key d) as [v0|] eqn:Hkey; simpl.
    + destruct (IH d) as (c & Hc & Hget). exists c. split; [done|].
      intros k. rewrite Hget. destruct (dict_get k d) as [v|] eqn:Hk; [done|].
      destruct (String.eqb_spec key k) as [->|_]; [congruence|done].
    + destruct (IH (dict_set key value d)) as (c & Hc & Hget). exists c. split; [done|].
      intros k. rewrite Hget, dict_get_set.
      destruct (String.eqb_spec key k) as [->|_]; [by rewrite Hkey|done].
Qed.

Lemma config_item_present k c :
  key_in E k (PDict c) = Returns true -> exists v, config_item E k (PDict c) = Returns v.
Proof. simpl. destruct (dict_get k c) as [v|]; [eauto|done]. Qed.

Lemma config_items_present keys c :
  Forall (fun k => key_in E k (PDict c) = Returns true) keys ->
  exists vs, config_items E keys (PDict c) = Returns vs.
Proof.
  induction 1 as [|k keys Hk _ [vs IH]]; [by exists []|].
  destruct (config_item_present k c Hk) as [v Hv].
  exists (v :: vs). cbn [config_items]. by rewrite Hv, IH.
Qed.

Lemma load_config_cases disk :
  load_config E disk =
  match disk with
  | Some text =>
      match and_then (json_load E text) (merge_defaults E default_config) with
      | Returns config => (config, disk)
      | Raises _ =>
          (PDict default_config,
           if can_write E then Some (json_dump E (PDict default_config)) else disk)
      end
  | None =>
      (PDict default_config,
       if can_write E then Some (json_dump E (PDict default_config)) else disk)
  end.
Proof.
  unfold load_config, save_config, St.bind, St.get, St.ret, St.modify.
  destruct disk as [text|]; [|by destruct (can_write E)].
  destruct (and_then _ _); [done|]. by destruct (can_write E).
Qed.

Lemma default_config_has_defaults :
  Forall (fun kv => key_in E kv.1 (PDict default_config) = Returns true) default_config.
Proof. by apply (merge_defaults_returns default_config (PDict default_config)). Qed.

(** The merge of [get_connected_devices] keeps the SSH devices first and in
    their order, and appends, in their order, exactly the web devices whose
    address no SSH device has.  Web devices are compared with the SSH
    devices only: when neither list repeats an address, the merged list
    does not either. *)
Theorem merge_devices_ssh_first (devices web_devices : list OpenWRTQuery.RouterDevice) :
  merge_devices devices web_devices
  = devices ++ filter (fun d => OpenWRTQuery.ip_address d
                                ∉ map OpenWRTQuery.ip_address devices) web_devices
  /\ (NoDup (map OpenWRTQuery.ip_address devices) ->
      NoDup (map OpenWRTQuery.ip_address web_devices) ->
      NoDup (map OpenWRTQuery.ip_address (merge_devices devices web_devices))).
Proof.
  assert (Heq : merge_devices devices web_devices
                = devices ++ filter (fun d => OpenWRTQuery.ip_address d
                                              ∉ map OpenWRTQuery.ip_address devices)
                                    web_devices)
    by apply merge_loop_filter.
  split; [done|]. intros Hd Hw. rewrite Heq.
  change (NoDup (OpenWRTQuery.ip_address <$>
                 devices ++ filter (fun d => OpenWRTQuery.ip_address d
                                             ∉ map OpenWRTQuery.ip_address devices)
                                   web_devices)).
  rewrite fmap_app. apply NoDup_app. split; [done|]. split.
  - intros ip Hip Hin. apply list_elem_of_fmap in Hin as (d & -> & Hd').
    apply list_elem_of_filter in Hd' as [Hnot _]. by apply Hnot.
  - eapply sublist_NoDup; [exact Hw|]. apply fmap_sublist, sublist_filter.
Qed.

Lemma query_dhcp_clients_cases config :
  query_dhcp_clients E config = Returns []
  \/ exists e, query_dhcp_clients E config = Raises e.
Proof.
  unfold query_dhcp_clients. destruct (requests_available E); [|eauto].
  destruct (config_item E "use_https" config); simpl; [|eauto].
  destruct (config_item E "web_port" config); simpl; [|eauto].
  destruct (config_item E "router_ip" config); simpl; eauto.
Qed.

Lemma query_dhcp_clients_needs_requests config :
  requests_available E = false -> exists e, query_dhcp_clients E config = Raises e.
Proof. unfold query_dhcp_clients. intros ->. eauto. Qed.

(** The two [if] blocks of [get_connected_devices] for a method already
    chosen. *)
Lemma query_blocks_sources config (ssh web : bool) devices :
  and_then (if ssh then query_dhcp_leases E config else Returns [])
    (fun devices =>
       if web
       then and_then (query_dhcp_clients E config) (fun web_devices =>
              Returns (merge_devices devices web_devices))
       else Returns devices) = Returns devices ->
  devices = [] \/ query_dhcp_leases E config = Returns devices.
Proof.
  destruct (query_dhcp_clients_cases config) as [Hweb|[e Hweb]]; rewrite Hweb;
    destruct ssh, web; simpl;
    try (destruct (query_dhcp_leases E config) as [ds|e']; simpl);
    intros [= <-]; auto.
Qed.

(** [get_connected_devices] by method.  With "ssh" it is the SSH query; with
    "web" it is the web query, which returns no device; with "both" the
    devices are those of the SSH query, but a web query that raises loses
    them; any other method returns no device without any query.  An empty
    method is no method.  So a returned list is empty or is the list of the
    SSH query, and without the requests library "web" and "both" never
    return. *)
Theorem get_connected_devices_by_method (config : pyval) (m : string) :
  let r := get_connected_devices E config (Some m) in
  (m = "ssh" -> r = query_dhcp_leases E config)
  /\ (m = "web" -> r = query_dhcp_clients E config)
  /\ (m = "both" ->
      r = and_then (query_dhcp_leases E config) (fun devices =>
            and_then (query_dhcp_clients E config) (fun _ => Returns devices)))
  /\ (Py.nonempty m = true -> m <> "ssh" -> m <> "web" -> m <> "both" -> r = Returns [])
  /\ (m = "" -> r = get_connected_devices E config None)
  /\ (forall devices, r = Returns devices ->
      devices = [] \/ query_dhcp_leases E config = Returns devices)
  /\ (requests_available E = false -> m = "web" \/ m = "both" -> exists e, r = Raises e).
Proof.
  cbv zeta.
  split; [intros ->; cbn; by destruct (query_dhcp_leases E config)|].
  split.
  { intros ->. cbn.
    destruct (query_dhcp_clients_cases config) as [->|[e ->]]; done. }
  split.
  { intros ->. cbn. destruct (query_dhcp_leases E config) as [devices|e]; [|done].
    cbn. destruct (query_dhcp_clients_cases config) as [->|[e ->]]; done. }
  split.
  { intros Hm Hssh Hweb Hboth. unfold get_connected_devices. rewrite Hm.
    cbn [and_then is_method].
    destruct (String.eqb_spec m "ssh"); [done|].
    destruct (String.eqb_spec m "web"); [done|].
    destruct (String.eqb_spec m "both"); [done|]. done. }
  split; [by intros ->|].
  split.
  { intros devices. unfold get_connected_devices.
    destruct (if Py.nonempty m then Returns (PStr m) else config_item E "method" config)
      as [query_method|e]; [|done].
    cbn [and_then]. apply query_blocks_sources. }
  intros Hreq Hm.
  destruct (query_dhcp_clients_needs_requests config Hreq) as [e He].
  destruct Hm as [-> | ->]; cbn; [rewrite He; eauto|].
  destruct (query_dhcp_leases E config) as [devices|e']; cbn; [|eauto].
  rewrite He. eauto.
Qed.

End ManagerMore.

Section ConfigMore.
Import RouterManager.
Variable E : Env.

Local Arguments merge_defaults : simpl never.

(** Whatever is on the disk, every key of the default configuration is
    [in] the configuration that [load_config] returns.  A file that holds
    a JSON object is returned with its own values, the missing keys filled
    from the defaults, and the file is left as it is; without a file the
    defaults are returned and written (when the file can be written).  A
    returned object therefore has every item that the SSH and web queries
    read. *)
Theorem load_config_has_defaults (disk : option string) :
  let config := (load_config E disk).1 in
  let disk' := (load_config E disk).2 in
  Forall (fun kv => key_in E kv.1 config = Returns true) default_config
  /\ (forall text d,
        disk = Some text -> json_load E text = Returns (PDict d) ->
        disk' = disk
        /\ exists c, config = PDict c
                     /\ forall k, dict_get k c =
                                  match dict_get k d with
                                  | Some v => Some v
                                  | None => dict_get k default_config
                                  end)
  /\ (disk = None ->
      config = PDict default_config
      /\ disk' = if can_write E then Some (json_dump E (PDict default_config)) else None)
  /\ (forall c, config = PDict c ->
      exists args,
        config_items E (map fst default_config) config = Returns args).
Proof.
  cbv zeta. rewrite load_config_cases.
  assert (Hall : Forall (fun kv => key_in E kv.1 (load_config E disk).1 = Returns true)
                        default_config).
  { rewrite load_config_cases. destruct disk as [text|]; [|apply default_config_has_defaults].
    destruct (and_then _ _) as [config|e] eqn:Hload; [|apply default_config_has_defaults].
    destruct (json_load E text) as [v|e]; [|done].
    by apply (merge_defaults_returns E default_config v). }
  rewrite load_config_cases in Hall.
  split; [exact Hall|]. split.
  { intros text d -> Hjson. rewrite Hjson. cbn [and_then].
    destruct (merge_defaults_dict E default_config d) as (c & -> & Hget).
    split; [done|]. by exists c. }
  split.
  { by intros ->. }
  intros c Hc. rewrite Hc in Hall |- *.
  apply config_items_present. rewrite List.Forall_forall in Hall.
  apply List.Forall_forall. intros k Hk. apply in_map_iff in Hk as ([k' v] & <- & Hin).
  by apply (Hall (k', v)).
Qed.

(** [load_config] settles: a second load never changes the file again, and
    when [json.load] reads the dump of the defaults back as the defaults,
    it returns the configuration that the first load returned. *)
Theorem load_config_settles (disk : option string) :
  let first := load_config E disk in
  let second := load_config E first.2 in
  second.2 = first.2
  /\ (json_load E (json_dump E (PDict default_config)) = Returns (PDict default_config) ->
      second.1 = first.1).
Proof.
  cbv zeta. rewrite (load_config_cases E disk).
  assert (Hdefaults : merge_defaults E default_config (PDict default_config)
                      = Returns (PDict default_config)) by reflexivity.
  assert (Hfallback :
            let written := if can_write E
                           then Some (json_dump E (PDict default_config)) else disk in
            (disk = None
             \/ exists text e, disk = Some text
                  /\ and_then (json_load E text) (merge_defaults E default_config)
                     = Raises e) ->
            (load_config E written).2 = written
            /\ (json_load E (json_dump E (PDict default_config))
                = Returns (PDict default_config) ->
                (load_config E written).1 = PDict default_config)).
  { cbv zeta. intros Hdisk. rewrite load_config_cases.
    destruct (can_write E) eqn:Hw.
    - destruct (and_then (json_load E (json_dump E (PDict default_config))) _)
        as [config|e] eqn:Hload; cbn [fst snd].
      + split; [done|]. intros Hback. rewrite Hback in Hload. cbn [and_then] in Hload.
        rewrite Hdefaults in Hload. by injection Hload as <-.
      + by split.
    - destruct Hdisk as [->|(text & e & -> & ->)]; by rewrite ?Hw. }
  destruct disk as [text|]; [|apply Hfallback; by left].
  destruct (and_then (json_load E text) _) as [config|e] eqn:Hload; cbn [fst snd].
  - rewrite load_config_cases, Hload. by split.
  - apply Hfallback. right. by exists text, e.
Qed.

End ConfigMore.

Lemma merge_devices_ssh_first_witness :
  RouterManager.merge_devices [Sample.nano] [SampleWeb.nano_by_web; SampleWeb.printer]
  = [Sample.nano; SampleWeb.printer]
  /\ NoDup (map OpenWRTQuery.ip_address
              (RouterManager.merge_devices [Sample.nano]
                 [SampleWeb.nano_by_web; SampleWeb.printer])).
Proof.
  destruct (merge_devices_ssh_first [Sample.nano]
              [SampleWeb.nano_by_web; SampleWeb.printer]) as [Heq Hnodup].
  split; [by rewrite Heq|].
  apply Hnodup.
  - apply NoDup_singleton.
  - apply NoDup_cons. split; [|apply NoDup_singleton].
    intros Hin. apply list_elem_of_singleton in Hin. discriminate Hin.
Defined.

Lemma get_connected_devices_by_method_witness :
  RouterManager.get_connected_devices (SampleWeb.workstation true)
    (PDict RouterManager.default_config) (Some "telnet") = Returns []
  /\ (exists e,
        RouterManager.get_connected_devices (SampleWeb.workstation false)
          (PDict RouterManager.default_config) (Some "both") = Raises e)
  /\ RouterManager.get_connected_devices (SampleWeb.workstation true)
       (PDict RouterManager.default_config) (Some "both")
     = RouterManager.query_dhcp_leases (SampleWeb.workstation true)
         (PDict RouterManager.default_config).
Proof.
  split.
  - destruct (get_connected_devices_by_method (SampleWeb.workstation true)
                (PDict RouterManager.default_config) "telnet")
      as (_ & _ & _ & H & _).
    apply H; [reflexivity|discriminate..].
  - split.
    + destruct (get_connected_devices_by_method (SampleWeb.workstation false)
                  (PDict RouterManager.default_config) "both")
        as (_ & _ & _ & _ & _ & _ & H).
      apply H; [reflexivity|by right].
    + destruct (get_connected_devices_by_method (SampleWeb.workstation true)
                  (PDict RouterManager.default_config) "both")
        as (_ & _ & H & _).
      rewrite (H eq_refl). reflexivity.
Defined.

Lemma load_config_has_defaults_witness :
  (RouterManager.load_config (SampleWeb.workstation true) (Some "method: both")).2
  = Some "method: both"
  /\ (exists c,
        (RouterManager.load_config (SampleWeb.workstation true) (Some "method: both")).1
        = PDict c
        /\ dict_get "method" c = Some (PStr "both")
        /\ dict_get "ssh_port" c = Some (PInt 22)).
Proof.
  destruct (load_config_has_defaults (SampleWeb.workstation true) (Some "method: both"))
    as (_ & H & _).
  destruct (H "method: both" [("method", PStr "both")] eq_refl eq_refl)
    as (Hdisk & c & Hc & Hget).
  split; [exact Hdisk|]. exists c. split; [exact Hc|].
  split; rewrite Hget; reflexivity.
Defined.

Lemma load_config_settles_witness :
  (RouterManager.load_config (SampleWeb.workstation true)
     (RouterManager.load_config (SampleWeb.workstation true) None).2).1
  = (RouterManager.load_config (SampleWeb.workstation true) None).1.
Proof.
  destruct (load_config_settles (SampleWeb.workstation true) None) as [_ H].
  apply H. reflexivity.
Defined.
